(** * Cyclomatic-complexity analyzer extension: orchestration layer

    A shallow embedding of [src/extension.ts]: the three host-event
    handlers registered by [activate], the asynchronous function
    [performAnalysis] (split at its two [await]s), the debounce timer and the
    single webview panel.  The host (editor, timers, panels, network) is an
    explicit [World] that the handlers read and update; every observable
    action is appended to a time-stamped log. *)

From stdpp Require Import base option list strings gmap fin_maps.
From Stdlib Require Import ZArith Lia.

Local Open Scope string_scope.
Local Open Scope list_scope.
Local Open Scope Z_scope.

(** ** Data *)

(** [editor.document]: its identity (the source compares documents with
    [===]), its [languageId] and the result of [getText()]. *)
Record TextDocument := {
  docId : nat;
  languageId : string;
  getText : string
}.

(** The body handed to [JSON.stringify] at the [fetch] call. *)
Record AnalysisRequest := {
  code : string;
  language : string
}.

(** A parsed response body.  On the error path the source reads its optional
    [error] property (typed [{ error?: string }]); on the success path the
    whole value is forwarded untouched, so the rest is kept as [raw]. *)
Record Json := {
  error : option string;
  raw : string
}.

(** What the promise returned by [fetch] settles to. *)
Inductive FetchOutcome :=
| FetchRejected (message : string)
| FetchResponse (ok : bool) (statusText : string).

(** What the promise returned by [response.json()] settles to. *)
Inductive BodyOutcome :=
| BodyRejected (message : string)
| BodyParsed (value : Json).

(** Where a suspended [performAnalysis] call is waiting. *)
Inductive CallStage :=
| AwaitFetch
| AwaitErrorBody (statusText : string)
| AwaitResultBody.

(** A suspended [performAnalysis] call and its captured argument. *)
Record Call := {
  forcePanelCreation : bool;
  stage : CallStage
}.

(** Observable actions of the extension. *)
Inductive Effect :=
| ShowInformationMessage (s : string)
| ShowErrorMessage (s : string)
| ConsoleLog (s : string)
| ConsoleError (s : string)
| Fetch (call : nat) (url : string) (body : AnalysisRequest)
| CreateWebviewPanel (p : nat)
| SetHtml (p : nat)
| PostMessage (p : nat) (payload : Json)
| Reveal (p : nat).

(** Module variables of [extension.ts] ([currentPanel], [debounceTimeout])
    followed by the host state they are handles into. *)
Record World := {
  currentPanel : option nat;
  debounceTimeout : option nat;
  activeTextEditor : option TextDocument;
  now : Z;
  timers : list (nat * Z);
  panels : gmap nat bool;
  calls : gmap nat Call;
  nextId : nat;
  log : list (Z * Effect)
}.

Definition with_currentPanel (x : option nat) (w : World) : World :=
  {| currentPanel := x; debounceTimeout := debounceTimeout w;
     activeTextEditor := activeTextEditor w; now := now w;
     timers := timers w; panels := panels w; calls := calls w;
     nextId := nextId w; log := log w |}.

Definition with_debounceTimeout (x : option nat) (w : World) : World :=
  {| currentPanel := currentPanel w; debounceTimeout := x;
     activeTextEditor := activeTextEditor w; now := now w;
     timers := timers w; panels := panels w; calls := calls w;
     nextId := nextId w; log := log w |}.

Definition with_activeTextEditor (x : option TextDocument) (w : World) : World :=
  {| currentPanel := currentPanel w; debounceTimeout := debounceTimeout w;
     activeTextEditor := x; now := now w;
     timers := timers w; panels := panels w; calls := calls w;
     nextId := nextId w; log := log w |}.

Definition with_now (x : Z) (w : World) : World :=
  {| currentPanel := currentPanel w; debounceTimeout := debounceTimeout w;
     activeTextEditor := activeTextEditor w; now := x;
     timers := timers w; panels := panels w; calls := calls w;
     nextId := nextId w; log := log w |}.

Definition with_timers (x : list (nat * Z)) (w : World) : World :=
  {| currentPanel := currentPanel w; debounceTimeout := debounceTimeout w;
     activeTextEditor := activeTextEditor w; now := now w;
     timers := x; panels := panels w; calls := calls w;
     nextId := nextId w; log := log w |}.

Definition with_panels (x : gmap nat bool) (w : World) : World :=
  {| currentPanel := currentPanel w; debounceTimeout := debounceTimeout w;
     activeTextEditor := activeTextEditor w; now := now w;
     timers := timers w; panels := x; calls := calls w;
     nextId := nextId w; log := log w |}.

Definition with_calls (x : gmap nat Call) (w : World) : World :=
  {| currentPanel := currentPanel w; debounceTimeout := debounceTimeout w;
     activeTextEditor := activeTextEditor w; now := now w;
     timers := timers w; panels := panels w; calls := x;
     nextId := nextId w; log := log w |}.

Definition with_nextId (x : nat) (w : World) : World :=
  {| currentPanel := currentPanel w; debounceTimeout := debounceTimeout w;
     activeTextEditor := activeTextEditor w; now := now w;
     timers := timers w; panels := panels w; calls := calls w;
     nextId := x; log := log w |}.

Definition with_log (x : list (Z * Effect)) (w : World) : World :=
  {| currentPanel := currentPanel w; debounceTimeout := debounceTimeout w;
     activeTextEditor := activeTextEditor w; now := now w;
     timers := timers w; panels := panels w; calls := calls w;
     nextId := nextId w; log := x |}.

(** Append one effect, stamped with the current time. *)
Definition emit (e : Effect) (w : World) : World :=
  with_log (log w ++ [(now w, e)]) w.

(** ** Constants of the source *)

Definition DEBOUNCE_DELAY_MS : Z := 500.

Definition API_URL : string :=
  "https://cyclomatic-complexity-analyzer-z1fm.onrender.com/api/complexity/analyze".

(** The array literal tested with [includes] in both event handlers. *)
Definition handlerLanguages : list string :=
  ["java"; "javascript"; "typescript"; "python"].

Definition includes (l : list string) (s : string) : bool :=
  existsb (String.eqb s) l.

Arguments includes : simpl never.

(** The [switch (languageId)] of [performAnalysis]; [None] is its
    [default] branch. *)
Definition backendLanguage (languageId : string) : option string :=
  if String.eqb languageId "typescript" then Some "javascript"
  else if String.eqb languageId "javascript" then Some "javascript"
  else if String.eqb languageId "java" then Some "java"
  else if String.eqb languageId "python" then Some "python"
  else None.

(** JavaScript's [a || b] on an optional string: [undefined] and the empty
    string are falsy. *)
Definition or_else (a : option string) (b : string) : string :=
  match a with
  | Some (String c s) => String c s
  | Some EmptyString => b
  | None => b
  end.

Definition noEditorMessage : string := "No active editor found to analyze!".

Definition unsupportedMessage (languageId : string) : string :=
  "Unsupported language in VS Code for analysis: " +:+ languageId
  +:+ ". Supported: Java, JavaScript, Python.".

Definition analyzingMessage (backend : string) : string :=
  "Analyzing " +:+ backend +:+ " code...".

Definition debouncedMessage (backend : string) : string :=
  "Debounced analysis triggered for " +:+ backend +:+ " code.".

Definition analysisFailedMessage (detail : string) : string :=
  "Analysis failed: " +:+ detail.

Definition cannotConnectMessage (message : string) : string :=
  "Could not connect to complexity analyzer backend. Is it running? Error: "
  +:+ message.

Definition errorDuringAnalysisMessage (message : string) : string :=
  "Error during analysis: " +:+ message.

(** ** [performAnalysis] *)

(** Lines 55-105: everything up to the first [await].  The call is parked in
    [calls] under a fresh id, waiting for [fetch] to settle. *)
Definition performAnalysis (force : bool) (w : World) : World :=
  match activeTextEditor w with
  | None =>
      if force then emit (ShowInformationMessage noEditorMessage) w else w
  | Some editor =>
      let code := getText editor in
      let languageId := languageId editor in
      match backendLanguage languageId with
      | None =>
          if force
          then emit (ShowErrorMessage (unsupportedMessage languageId)) w
          else w
      | Some backend =>
          let w1 :=
            if force
            then emit (ShowInformationMessage (analyzingMessage backend)) w
            else emit (ConsoleLog (debouncedMessage backend)) w in
          let c := nextId w1 in
          let w2 :=
            emit (Fetch c API_URL {| code := code; language := backend |}) w1 in
          with_nextId (S c)
            (with_calls (<[c := {| forcePanelCreation := force;
                                   stage := AwaitFetch |}]> (calls w2)) w2)
      end
  end.

(** Lines 157-164: the [catch] block. *)
Definition catchError (force : bool) (message : string) (w : World) : World :=
  let w1 :=
    if force || negb (bool_decide (is_Some (currentPanel w)))
    then emit (ShowErrorMessage (cannotConnectMessage message)) w
    else w in
  emit (ConsoleError (errorDuringAnalysisMessage message)) w1.

(** [currentPanel.visible], read from the host's panel table.  A handle
    missing from the table reads as not visible; [Consistent] below shows
    that [currentPanel] is never such a handle. *)
Definition visible (p : nat) (w : World) : bool :=
  default false (panels w !! p).

(** [currentPanel.reveal(ViewColumn.Two)]. *)
Definition reveal (p : nat) (w : World) : World :=
  emit (Reveal p) (with_panels (<[p := true]> (panels w)) w).

(** Lines 117-153: update or create the panel with a successful result. *)
Definition updateOrCreatePanel (force : bool) (result : Json) (w : World)
  : World :=
  match currentPanel w with
  | Some p =>
      let w1 := emit (PostMessage p result) w in
      if negb (visible p w1) || force then reveal p w1 else w1
  | None =>
      if force then
        let p := nextId w in
        let w1 :=
          emit (CreateWebviewPanel p)
            (with_nextId (S p) (with_panels (<[p := true]> (panels w)) w)) in
        let w2 := with_currentPanel (Some p) w1 in
        let w3 := emit (SetHtml p) w2 in
        emit (PostMessage p result) w3
      else w
  end.

(** The continuation of a call after [await fetch(...)] (lines 107-114, up to
    the next [await]). *)
Definition fetchSettled (c : nat) (r : FetchOutcome) (w : World) : World :=
  match calls w !! c with
  | Some {| forcePanelCreation := force; stage := AwaitFetch |} =>
      match r with
      | FetchRejected message =>
          catchError force message (with_calls (delete c (calls w)) w)
      | FetchResponse ok statusText =>
          let st := if negb ok then AwaitErrorBody statusText
                    else AwaitResultBody in
          with_calls (<[c := {| forcePanelCreation := force;
                                stage := st |}]> (calls w)) w
      end
  | _ => w
  end.

(** The continuation of a call after [await response.json()]. *)
Definition bodySettled (c : nat) (r : BodyOutcome) (w : World) : World :=
  match calls w !! c with
  | Some {| forcePanelCreation := force; stage := AwaitErrorBody statusText |} =>
      let w1 := with_calls (delete c (calls w)) w in
      match r with
      | BodyRejected message => catchError force message w1
      | BodyParsed errorData =>
          emit (ShowErrorMessage
                  (analysisFailedMessage (or_else (error errorData) statusText)))
               w1
      end
  | Some {| forcePanelCreation := force; stage := AwaitResultBody |} =>
      let w1 := with_calls (delete c (calls w)) w in
      match r with
      | BodyRejected message => catchError force message w1
      | BodyParsed result => updateOrCreatePanel force result w1
      end
  | _ => w
  end.

(** ** The debounce timer *)

(** The host's timer queue, ordered by due time (arming order among equals). *)
Fixpoint enqueue (x : nat * Z) (q : list (nat * Z)) : list (nat * Z) :=
  match q with
  | [] => [x]
  | y :: q' =>
      if bool_decide (y.2 ≤ x.2) then y :: enqueue x q' else x :: y :: q'
  end.

(** [clearTimeout(h)]; a handle that already fired is simply not there. *)
Definition clearTimeout (h : nat) (w : World) : World :=
  with_timers (filter (λ x : nat * Z, x.1 ≠ h) (timers w)) w.

(** [setTimeout(() => performAnalysis(), delay)]: the only callback ever
    armed, so a queue entry is just a handle and a due time. *)
Definition setTimeout (delay : Z) (w : World) : nat * World :=
  let h := nextId w in
  (h, with_nextId (S h) (with_timers (enqueue (h, now w + delay) (timers w)) w)).

(** ** The handlers registered by [activate] *)

(** Lines 12-15. *)
Definition onCommand (w : World) : World :=
  performAnalysis true w.

(** Lines 19-36; [d] is [event.document]. *)
Definition onDidChangeTextDocument (d : nat) (w : World) : World :=
  match activeTextEditor w with
  | Some editor =>
      if bool_decide (docId editor = d) then
        if includes handlerLanguages (languageId editor) then
          let w1 :=
            match debounceTimeout w with
            | Some h => clearTimeout h w
            | None => w
            end in
          let '(h, w2) := setTimeout DEBOUNCE_DELAY_MS w1 in
          with_debounceTimeout (Some h) w2
        else w
      else w
  | None => w
  end.

(** Lines 39-46. *)
Definition onDidChangeActiveTextEditor (editor : option TextDocument)
  (w : World) : World :=
  match editor with
  | Some e =>
      if includes handlerLanguages (languageId e)
      then performAnalysis false w
      else w
  | None => w
  end.

(** Lines 144-149: the disposal hook. *)
Definition onDidDispose (w : World) : World :=
  with_currentPanel None w.

(** Lines 136-141: the inbound-message hook. *)
Definition onDidReceiveMessage (message : string) (w : World) : World :=
  emit (ConsoleLog ("Message from webview: " +:+ message)) w.

(** ** The host event loop *)

Inductive Event :=
| CommandInvoked
| TextDocumentChanged (d : nat) (newText : string)
| ActiveEditorChanged (editor : option TextDocument)
| FetchSettles (c : nat) (r : FetchOutcome)
| BodySettles (c : nat) (r : BodyOutcome)
| PanelClosed (p : nat)
| PanelVisibility (p : nat) (v : bool)
| WebviewMessage (p : nat) (message : string).

(** The host writes the new text into the document before it notifies; only
    the active editor's document is ever read by the extension. *)
Definition applyEdit (d : nat) (newText : string) (w : World) : World :=
  match activeTextEditor w with
  | Some editor =>
      if bool_decide (docId editor = d)
      then with_activeTextEditor
             (Some {| docId := d; languageId := languageId editor;
                      getText := newText |}) w
      else w
  | None => w
  end.

(** One host event, delivered at the current time. *)
Definition dispatch (ev : Event) (w : World) : World :=
  match ev with
  | CommandInvoked => onCommand w
  | TextDocumentChanged d newText =>
      onDidChangeTextDocument d (applyEdit d newText w)
  | ActiveEditorChanged editor =>
      onDidChangeActiveTextEditor editor (with_activeTextEditor editor w)
  | FetchSettles c r => fetchSettled c r w
  | BodySettles c r => bodySettled c r w
  | PanelClosed p =>
      match panels w !! p with
      | Some _ => onDidDispose (with_panels (delete p (panels w)) w)
      | None => w
      end
  | PanelVisibility p v =>
      match panels w !! p with
      | Some _ => with_panels (<[p := v]> (panels w)) w
      | None => w
      end
  | WebviewMessage p message =>
      match panels w !! p with
      | Some _ => onDidReceiveMessage message w
      | None => w
      end
  end.

(** A timer comes due: the host drops it from the queue and runs its
    callback, [performAnalysis()] with the default [false] (lines 31-33). *)
Definition timerFires (h : nat) (due : Z) (w : World) : World :=
  performAnalysis false
    (with_now (Z.max (now w) due)
       (with_timers (filter (λ x : nat * Z, x.1 ≠ h) (timers w)) w)).

(** Fire, in queue order, the timers of [q] that are due by [t].  The
    callback neither arms nor clears a timer, so the queue as it stood when
    time started to pass decides what fires. *)
Fixpoint runTimers (t : Z) (q : list (nat * Z)) (w : World) : World :=
  match q with
  | [] => w
  | (h, due) :: q' =>
      if bool_decide (due ≤ t) then runTimers t q' (timerFires h due w) else w
  end.

(** Let time pass until [t]. *)
Definition advance (t : Z) (w : World) : World :=
  let w1 := runTimers t (timers w) w in
  with_now (Z.max (now w1) t) w1.

(** A host event arriving at time [t]. *)
Definition handle (te : Z * Event) (w : World) : World :=
  dispatch te.2 (advance te.1 w).

Definition run (evs : list (Z * Event)) (w : World) : World :=
  fold_left (λ w te, handle te w) evs w.

Definition dquote : string := String (Ascii.ascii_of_nat 34) EmptyString.

(** The world right after [activate] returns (lines 8-47). *)
Definition activate : World :=
  emit (ConsoleLog ("Congratulations, " +:+ dquote
                    +:+ "cyclomatic-complexity-analyzer" +:+ dquote
                    +:+ " is now active!"))
    {| currentPanel := None; debounceTimeout := None;
       activeTextEditor := None; now := 0; timers := []; panels := ∅;
       calls := ∅; nextId := 0; log := [] |}.

(** ** Reading the log *)

Definition requestOf (e : Z * Effect) : option AnalysisRequest :=
  match e.2 with
  | Fetch _ _ body => Some body
  | _ => None
  end.

(** The effects that [w'] logged beyond those of [w]. *)
Definition since (w w' : World) : list (Z * Effect) :=
  drop (length (log w)) (log w').

(** The analysis requests sent between [w] and [w']. *)
Definition sentBy (w w' : World) : list AnalysisRequest :=
  omap requestOf (since w w').

Definition isErrorNotice (e : Z * Effect) : bool :=
  match e.2 with
  | ShowErrorMessage _ => true
  | _ => false
  end.

Definition touchesPanel (e : Z * Effect) : bool :=
  match e.2 with
  | CreateWebviewPanel _ | SetHtml _ | PostMessage _ _ | Reveal _ => true
  | _ => false
  end.

(** Whether an error popup appeared between [w] and [w']. *)
Definition errorNoticeShown (w w' : World) : bool :=
  existsb isErrorNotice (since w w').

(** ** Classifying events *)

(** The events that make an analysis attempt fail: [fetch] rejects (the call
    cannot complete), the response status is not a success, the body of an
    error response arrives, or [response.json()] rejects. *)
Definition failedAttempt (ev : Event) (w : World) : bool :=
  match ev with
  | FetchSettles _ (FetchRejected _) => true
  | FetchSettles _ (FetchResponse ok _) => negb ok
  | BodySettles _ (BodyRejected _) => true
  | BodySettles c (BodyParsed _) =>
      match calls w !! c with
      | Some {| stage := AwaitErrorBody _ |} => true
      | _ => false
      end
  | _ => false
  end.

(** ** Invariants of the running extension *)

(** The module variable [currentPanel] and the host's table of live panels
    name the same panel, if any; panel ids are never reused; and a pending
    timer, if any, is the one [debounceTimeout] holds. *)
Record Consistent (w : World) : Prop := {
  panel_slot :
    match currentPanel w with
    | Some p => ∃ v, panels w = {[p := v]}
    | None => panels w = ∅
    end;
  panel_ids : ∀ p, is_Some (panels w !! p) → (p < nextId w)%nat;
  timer_slot :
    match timers w with
    | [] => True
    | [x] => debounceTimeout w = Some x.1
    | _ => False
    end
}.

(** ** Bursts of edits *)

(** The state between two edits of a burst: the edited document is focused
    and holds [text], the clock reads [t], and the only queued timer is the
    one [debounceTimeout] holds, due [DEBOUNCE_DELAY_MS] after [t]. *)
Record Armed (editor : TextDocument) (text : string) (t : Z) (w : World)
  : Prop := {
  armed_editor :
    activeTextEditor w
    = Some {| docId := docId editor; languageId := languageId editor;
              getText := text |};
  armed_clock : now w = t;
  armed_timer : timers w = [(Nat.pred (nextId w), t + DEBOUNCE_DELAY_MS)];
  armed_handle : debounceTimeout w = Some (Nat.pred (nextId w))
}.

(** Edits [(time, new text)] to document [d], as host events. *)
Definition burst (d : nat) (edits : list (Z * string)) : list (Z * Event) :=
  map (λ e : Z * string, (e.1, TextDocumentChanged d e.2)) edits.

(** Every edit arrives at or after the previous one and less than
    [DEBOUNCE_DELAY_MS] after it; [prev] is the time of the previous edit. *)
Fixpoint withinDelay (prev : Z) (edits : list (Z * string)) : Prop :=
  match edits with
  | [] => True
  | e :: rest =>
      prev ≤ e.1 ∧ e.1 < prev + DEBOUNCE_DELAY_MS ∧ withinDelay e.1 rest
  end.

(** ** Sample documents and worlds *)

Definition pyDoc : TextDocument :=
  {| docId := 1; languageId := "python"; getText := "x = 1" |}.

Definition tsDoc : TextDocument :=
  {| docId := 2; languageId := "typescript"; getText := "let y = 2;" |}.

Definition rubyDoc : TextDocument :=
  {| docId := 3; languageId := "ruby"; getText := "puts 1" |}.

Definition sampleResult : Json :=
  {| error := None; raw := "{summary:{totalMethods:1,totalComplexity:1}}" |}.

Definition sampleError : Json :=
  {| error := Some "boom"; raw := "{error:boom}" |}.

(** The Python document is focused right after activation. *)
Definition focused : World :=
  handle (0, ActiveEditorChanged (Some pyDoc)) activate.

(** A Manual analysis of the Python document succeeded: a panel is open. *)
Definition panelOpen : World :=
  run [(10, CommandInvoked);
       (20, FetchSettles 1 (FetchResponse true "OK"));
       (30, BodySettles 1 (BodyParsed sampleResult))] focused.

(** The user typed at time 100 with the panel open; the debounce timer fired
    at 600 and the service answered that Background request with status 500. *)
Definition backgroundServiceError : World :=
  run [(100, TextDocumentChanged 1 "x = ");
       (650, FetchSettles 4 (FetchResponse false "Internal Server Error"))]
    panelOpen.

(** The user typed at time 100; the timer is pending until 600. *)
Definition typing : World :=
  handle (100, TextDocumentChanged 1 "x = 2") focused.

(** After [panelOpen], a second Manual analysis has received a success
    status and awaits its body. *)
Definition manualAgainTrace : list (Z * Event) :=
  [(0, ActiveEditorChanged (Some pyDoc));
   (10, CommandInvoked);
   (20, FetchSettles 1 (FetchResponse true "OK"));
   (30, BodySettles 1 (BodyParsed sampleResult));
   (40, CommandInvoked);
   (50, FetchSettles 3 (FetchResponse true "OK"))].

(** The Background analysis started by the focus change has received a
    success status and awaits its body; no panel was ever opened. *)
Definition backgroundAwaitingBody : World :=
  handle (5, FetchSettles 0 (FetchResponse true "OK")) focused.

(** ** Further readings of the log *)

(** Popups of either kind. *)
Definition isPopup (e : Z * Effect) : bool :=
  match e.2 with
  | ShowInformationMessage _ | ShowErrorMessage _ => true
  | _ => false
  end.

Definition postOf (e : Z * Effect) : option (nat * Json) :=
  match e.2 with
  | PostMessage p payload => Some (p, payload)
  | _ => None
  end.

(** The panel and payload of the most recent [postMessage]. *)
Definition lastPosted (l : list (Z * Effect)) : option (nat * Json) :=
  last (omap postOf l).

(** ** [deactivate] *)

(** [currentPanel.dispose()]: the host drops a live panel and runs its
    disposal hook; disposing a panel that is gone does nothing. *)
Definition dispose (p : nat) (w : World) : World :=
  match panels w !! p with
  | Some _ => onDidDispose (with_panels (delete p (panels w)) w)
  | None => w
  end.

(** Lines 281-289. *)
Definition deactivate (w : World) : World :=
  let w1 :=
    emit (ConsoleLog (dquote +:+ "cyclomatic-complexity-analyzer" +:+ dquote
                      +:+ " is now deactivated!")) w in
  let w2 :=
    match currentPanel w1 with
    | Some p => dispose p w1
    | None => w1
    end in
  match debounceTimeout w2 with
  | Some h => clearTimeout h w2
  | None => w2
  end.

(** ** The script of the panel (lines 215-271) *)

(** The values the script interpolates with [${...}] are carried as the text
    the interpolation yields.  [summary], [methods] and [status] may be
    absent: reading a property of [undefined], or calling its [forEach] or
    [toLowerCase], throws. *)
Record Summary := {
  totalMethods : string;
  totalComplexity : string
}.

Record MethodInfo := {
  name : string;
  line : string;
  complexity : string;
  status : option string;
  nestingDepth : string
}.

Record AnalysisResult := {
  summary : option Summary;
  methods : option (list MethodInfo)
}.

(** [event.data]. *)
Record Message := {
  type : string;
  payload : AnalysisResult
}.

(** The [innerHTML] of the two containers the script writes. *)
Record Dom := {
  summaryDiv : string;
  methodsDetailsDiv : string
}.

Definition nl : string := String (Ascii.ascii_of_nat 10) EmptyString.

(** Lines 228-232. *)
Definition summaryMarkup (s : Summary) : string :=
  nl +:+ "                            <h2>Summary</h2>" +:+ nl
  +:+ "                            <p><strong>Total Methods:</strong> "
  +:+ totalMethods s +:+ "</p>" +:+ nl
  +:+ "                            <p><strong>Total Complexity:</strong> "
  +:+ totalComplexity s +:+ "</p>" +:+ nl +:+ "                        ".

(** Lines 236-249. *)
Definition tableHead : string :=
  nl +:+ "                            <h2>Methods Details</h2>" +:+ nl
  +:+ "                            <table>" +:+ nl
  +:+ "                                <thead>" +:+ nl
  +:+ "                                    <tr>" +:+ nl
  +:+ "                                        <th>Method Name</th>" +:+ nl
  +:+ "                                        <th>Line</th>" +:+ nl
  +:+ "                                        <th>Complexity</th>" +:+ nl
  +:+ "                                        <th>Status</th>" +:+ nl
  +:+ "                                        <th>Nesting Depth</th>" +:+ nl
  +:+ "                                    </tr>" +:+ nl
  +:+ "                                </thead>" +:+ nl
  +:+ "                                <tbody>" +:+ nl
  +:+ "                        ".

(** Lines 253-261, for a method whose [status] is the string [status];
    [toLowerCase] is JavaScript's [String.prototype.toLowerCase]. *)
Definition rowMarkup (toLowerCase : string → string) (method : MethodInfo)
  (status : string) : string :=
  nl +:+ "                                <tr>" +:+ nl
  +:+ "                                    <td>" +:+ name method +:+ "</td>"
  +:+ nl +:+ "                                    <td>" +:+ line method
  +:+ "</td>" +:+ nl +:+ "                                    <td>"
  +:+ complexity method +:+ "</td>" +:+ nl
  +:+ "                                    <td class=" +:+ dquote
  +:+ "status-" +:+ toLowerCase status +:+ dquote +:+ ">" +:+ status
  +:+ "</td>" +:+ nl +:+ "                                    <td>"
  +:+ nestingDepth method +:+ "</td>" +:+ nl
  +:+ "                                </tr>" +:+ nl
  +:+ "                            ".

Arguments rowMarkup : simpl never.

(** Lines 264-267. *)
Definition tableFoot : string :=
  nl +:+ "                                </tbody>" +:+ nl
  +:+ "                            </table>" +:+ nl
  +:+ "                        ".

(** Lines 252-262: [forEach] appends one row per method to [tableHtml];
    [None] when a [status] is missing and [toLowerCase] throws. *)
Fixpoint forEachMethod (toLowerCase : string → string)
  (methods : list MethodInfo) (tableHtml : string) : option string :=
  match methods with
  | [] => Some tableHtml
  | method :: rest =>
      match status method with
      | None => None
      | Some st =>
          forEachMethod toLowerCase rest
            (tableHtml +:+ rowMarkup toLowerCase method st)
      end
  end.

(** Lines 221-270: the [message] listener.  An exception leaves the page as
    the statements before it made it. *)
Definition onMessage (toLowerCase : string → string) (message : Message)
  (dom : Dom) : Dom :=
  if String.eqb (type message) "analysisResult" then
    let result := payload message in
    match summary result with
    | None => dom
    | Some s =>
        let dom1 := {| summaryDiv := summaryMarkup s;
                       methodsDetailsDiv := methodsDetailsDiv dom |} in
        match methods result with
        | None => dom1
        | Some ms =>
            match forEachMethod toLowerCase ms tableHead with
            | None => dom1
            | Some tableHtml =>
                {| summaryDiv := summaryDiv dom1;
                   methodsDetailsDiv := tableHtml +:+ tableFoot |}
            end
        end
    end
  else dom.

(** The rows of a table, when every method has a [status]. *)
Definition rowsMarkup (toLowerCase : string → string)
  (methods : list MethodInfo) : option (list string) :=
  mapM (λ method, rowMarkup toLowerCase method <$> status method) methods.

Definition concatStrings (l : list string) : string :=
  foldr String.append EmptyString l.

(** [toLowerCase] on ASCII text, for the examples. *)
Definition lowerAscii (a : Ascii.ascii) : Ascii.ascii :=
  let n := Ascii.nat_of_ascii a in
  if (65 <=? n)%nat && (n <=? 90)%nat then Ascii.ascii_of_nat (n + 32) else a.

Fixpoint toLowerCaseAscii (s : string) : string :=
  match s with
  | EmptyString => EmptyString
  | String a rest => String (lowerAscii a) (toLowerCaseAscii rest)
  end.

(** ** More invariants *)

(** A queued timer is not overdue and is due at most [DEBOUNCE_DELAY_MS]
    from now. *)
Definition TimerWindow (w : World) : Prop :=
  Forall (λ x : nat * Z, now w < x.2 ∧ x.2 ≤ now w + DEBOUNCE_DELAY_MS)
    (timers w).

(** Every message posted and every reveal between [w] and [w'] went to a
    panel that is alive in [w']. *)
Definition postsReachLivePanel (w w' : World) : Prop :=
  Forall (λ e : Z * Effect,
            match e.2 with
            | PostMessage p _ | Reveal p => is_Some (panels w' !! p)
            | _ => True
            end) (since w w').

(** ** Sample messages *)

Definition sampleMethod : MethodInfo :=
  {| name := "f"; line := "1"; complexity := "1"; status := Some "Simple";
     nestingDepth := "0" |}.

Definition sampleMessage : Message :=
  {| type := "analysisResult";
     payload := {| summary := Some {| totalMethods := "1";
                                      totalComplexity := "1" |};
                   methods := Some [sampleMethod] |} |}.

(** A payload whose [methods] property is missing. *)
Definition truncatedMessage : Message :=
  {| type := "analysisResult";
     payload := {| summary := Some {| totalMethods := "2";
                                      totalComplexity := "5" |};
                   methods := None |} |}.

Definition emptyDom : Dom :=
  {| summaryDiv := EmptyString; methodsDetailsDiv := EmptyString |}.

(** A Manual analysis awaits its body when the extension is deactivated. *)
Definition manualInFlight : list (Z * Event) :=
  [(0, ActiveEditorChanged (Some pyDoc));
   (10, CommandInvoked);
   (20, FetchSettles 1 (FetchResponse true "OK"))].

(** The Python document is focused, then edited at time 100. *)
Definition typingTrace : list (Z * Event) :=
  [(0, ActiveEditorChanged (Some pyDoc));
   (100, TextDocumentChanged 1 "x = 2")].

(** ** Basic facts *)

Lemma since_refl (w : World) : since w w = [].
Proof. unfold since. apply drop_all. Qed.

Lemma since_same (w w' : World) : log w' = log w → since w w' = [].
Proof. intros E. unfold since. rewrite E. apply drop_all. Qed.

Lemma since_log_eq (w1 w2 w' : World) :
  log w1 = log w2 → since w1 w' = since w2 w'.
Proof. intros E. unfold since. by rewrite E. Qed.

Lemma since_emit (w : World) (e : Effect) : since w (emit e w) = [(now w, e)].
Proof. unfold since, emit; simpl. apply drop_app_length. Qed.

Lemma since_app (w w' : World) (l : list (Z * Effect)) :
  log w' = log w ++ l → since w w' = l.
Proof. intros E. unfold since. rewrite E. apply drop_app_length. Qed.

Lemma backendLanguage_typescript : backendLanguage "typescript" = Some "javascript".
Proof. reflexivity. Qed.

Lemma backendLanguage_javascript : backendLanguage "javascript" = Some "javascript".
Proof. reflexivity. Qed.

Lemma backendLanguage_java : backendLanguage "java" = Some "java".
Proof. reflexivity. Qed.

Lemma backendLanguage_python : backendLanguage "python" = Some "python".
Proof. reflexivity. Qed.

Lemma backendLanguage_other (tag : string) :
  tag ≠ "typescript" → tag ≠ "javascript" → tag ≠ "java" → tag ≠ "python" →
  backendLanguage tag = None.
Proof.
  intros H1 H2 H3 H4. unfold backendLanguage.
  apply String.eqb_neq in H1, H2, H3, H4.
  by rewrite H1, H2, H3, H4.
Qed.

Lemma backendLanguage_Some (tag backend : string) :
  backendLanguage tag = Some backend →
  (tag = "typescript" ∧ backend = "javascript")
  ∨ (tag = "javascript" ∧ backend = "javascript")
  ∨ (tag = "java" ∧ backend = "java")
  ∨ (tag = "python" ∧ backend = "python").
Proof.
  unfold backendLanguage.
  destruct (String.eqb_spec tag "typescript"); [naive_solver|].
  destruct (String.eqb_spec tag "javascript"); [naive_solver|].
  destruct (String.eqb_spec tag "java"); [naive_solver|].
  destruct (String.eqb_spec tag "python"); [naive_solver|].
  discriminate.
Qed.

(** The handlers' [includes] test and the [switch] accept the same tags. *)
Lemma includes_backendLanguage (tag : string) :
  includes handlerLanguages tag = bool_decide (is_Some (backendLanguage tag)).
Proof.
  unfold includes, handlerLanguages, backendLanguage; simpl.
  destruct (String.eqb tag "java"), (String.eqb tag "javascript"),
    (String.eqb tag "typescript"), (String.eqb tag "python"); reflexivity.
Qed.

(** What one call of [performAnalysis] logs, case by case. *)
Lemma performAnalysis_no_editor (force : bool) (w : World) :
  activeTextEditor w = None →
  performAnalysis force w
  = if force then emit (ShowInformationMessage noEditorMessage) w else w.
Proof. intros E. unfold performAnalysis. by rewrite E. Qed.

Lemma performAnalysis_unsupported (force : bool) (w : World) (editor : TextDocument) :
  activeTextEditor w = Some editor →
  backendLanguage (languageId editor) = None →
  performAnalysis force w
  = if force
    then emit (ShowErrorMessage (unsupportedMessage (languageId editor))) w
    else w.
Proof. intros E L. unfold performAnalysis. by rewrite E, L. Qed.

Lemma performAnalysis_supported_log (force : bool) (w : World)
  (editor : TextDocument) (backend : string) :
  activeTextEditor w = Some editor →
  backendLanguage (languageId editor) = Some backend →
  log (performAnalysis force w)
  = log w ++
    [(now w, if force then ShowInformationMessage (analyzingMessage backend)
             else ConsoleLog (debouncedMessage backend));
     (now w, Fetch (nextId w) API_URL
               {| code := getText editor; language := backend |})].
Proof.
  intros E L. unfold performAnalysis. rewrite E, L.
  destruct force; simpl; by rewrite <- app_assoc.
Qed.

Lemma performAnalysis_supported_calls (force : bool) (w : World)
  (editor : TextDocument) (backend : string) :
  activeTextEditor w = Some editor →
  backendLanguage (languageId editor) = Some backend →
  calls (performAnalysis force w)
  = <[nextId w := {| forcePanelCreation := force; stage := AwaitFetch |}]>
      (calls w).
Proof.
  intros E L. unfold performAnalysis. rewrite E, L. by destruct force.
Qed.

Lemma sentBy_performAnalysis (force : bool) (w : World) :
  sentBy w (performAnalysis force w)
  = match activeTextEditor w with
    | None => []
    | Some editor =>
        match backendLanguage (languageId editor) with
        | None => []
        | Some backend => [{| code := getText editor; language := backend |}]
        end
    end.
Proof.
  unfold sentBy.
  destruct (activeTextEditor w) as [editor|] eqn:E.
  - destruct (backendLanguage (languageId editor)) as [backend|] eqn:L.
    + erewrite since_app by (by apply performAnalysis_supported_log).
      by destruct force.
    + rewrite (performAnalysis_unsupported _ _ _ E L).
      destruct force; [by rewrite since_emit | by rewrite since_refl].
  - rewrite (performAnalysis_no_editor _ _ E).
    destruct force; [by rewrite since_emit | by rewrite since_refl].
Qed.

(** [performAnalysis] leaves the module variables, the editor, the clock, the
    timer queue and the panels alone. *)
Lemma performAnalysis_frame (force : bool) (w : World) :
  let w' := performAnalysis force w in
  currentPanel w' = currentPanel w ∧ debounceTimeout w' = debounceTimeout w
  ∧ activeTextEditor w' = activeTextEditor w ∧ now w' = now w
  ∧ timers w' = timers w ∧ panels w' = panels w.
Proof.
  unfold performAnalysis.
  destruct (activeTextEditor w) as [editor|] eqn:E;
    [destruct (backendLanguage (languageId editor))|];
    destruct force; simpl; repeat split; congruence.
Qed.

(** ** Language support *)

(** C7: the backend language of a dispatched request follows the fixed
    mapping (typescript and javascript to javascript, java to java, python to
    python); for any other tag no request is sent at all. *)
Theorem language_mapping (force : bool) (w : World) (editor : TextDocument) :
  activeTextEditor w = Some editor →
  let tag := languageId editor in
  let w' := performAnalysis force w in
  (tag = "typescript" ∨ tag = "javascript" →
     sentBy w w' = [{| code := getText editor; language := "javascript" |}])
  ∧ (tag = "java" →
     sentBy w w' = [{| code := getText editor; language := "java" |}])
  ∧ (tag = "python" →
     sentBy w w' = [{| code := getText editor; language := "python" |}])
  ∧ (tag ≠ "typescript" → tag ≠ "javascript" → tag ≠ "java" →
     tag ≠ "python" → sentBy w w' = [] ∧ calls w' = calls w).
Proof.
  intros E tag w'. subst tag w'.
  rewrite sentBy_performAnalysis, E.
  repeat split.
  - intros [-> | ->]; reflexivity.
  - intros ->; reflexivity.
  - intros ->; reflexivity.
  - by rewrite backendLanguage_other.
  - rewrite (performAnalysis_unsupported force w editor E)
      by (by apply backendLanguage_other).
    by destruct force.
Qed.

Lemma language_mapping_witness :
  sentBy (with_activeTextEditor (Some tsDoc) activate)
    (performAnalysis true (with_activeTextEditor (Some tsDoc) activate))
  = [{| code := "let y = 2;"; language := "javascript" |}].
Proof.
  destruct (language_mapping true (with_activeTextEditor (Some tsDoc) activate)
              tsDoc eq_refl) as (H & _).
  apply H. left. reflexivity.
Defined.

(** C8: an attempt on an unsupported language sends no request and leaves the
    panel alone; a Manual attempt logs exactly one error notice, the
    unsupported-language one, and a Background attempt does nothing at all. *)
Theorem unsupported_language_dropped (force : bool) (w : World)
  (editor : TextDocument) :
  activeTextEditor w = Some editor →
  backendLanguage (languageId editor) = None →
  let w' := performAnalysis force w in
  sentBy w w' = [] ∧ calls w' = calls w
  ∧ currentPanel w' = currentPanel w ∧ panels w' = panels w
  ∧ since w w'
    = (if force
       then [(now w, ShowErrorMessage (unsupportedMessage (languageId editor)))]
       else [])
  ∧ (force = false → w' = w).
Proof.
  intros E L w'. subst w'.
  rewrite sentBy_performAnalysis, E, L.
  rewrite (performAnalysis_unsupported force w editor E L).
  destruct force; simpl; rewrite ?since_emit, ?since_refl; done.
Qed.

Lemma unsupported_language_dropped_witness :
  since (with_activeTextEditor (Some rubyDoc) activate)
    (performAnalysis true (with_activeTextEditor (Some rubyDoc) activate))
  = [(0, ShowErrorMessage
           "Unsupported language in VS Code for analysis: ruby. Supported: Java, JavaScript, Python.")].
Proof.
  destruct (unsupported_language_dropped true
              (with_activeTextEditor (Some rubyDoc) activate) rubyDoc
              eq_refl eq_refl) as (_ & _ & _ & _ & H & _).
  exact H.
Defined.

(** ** Which editor an attempt reads *)

(** The world in which the callback of an expiring timer runs. *)
Lemma timerFires_performAnalysis (h : nat) (due : Z) (w : World) :
  ∃ w0, timerFires h due w = performAnalysis false w0
        ∧ activeTextEditor w0 = activeTextEditor w
        ∧ log w0 = log w ∧ calls w0 = calls w.
Proof. eexists. split; [reflexivity|]. done. Qed.

(** C10: every attempt, also the one an expiring debounce timer starts, reads
    text and language from the editor that is active when it runs; with no
    active editor nothing is sent, and only a Manual attempt shows the
    missing-editor notice. *)
Theorem attempt_samples_active_editor (w : World) :
  (∀ force,
     match activeTextEditor w with
     | None =>
         performAnalysis force w
         = if force then emit (ShowInformationMessage noEditorMessage) w else w
     | Some editor =>
         sentBy w (performAnalysis force w)
         = match backendLanguage (languageId editor) with
           | Some backend =>
               [{| code := getText editor; language := backend |}]
           | None => []
           end
     end)
  ∧ (∀ h due,
       match activeTextEditor w with
       | None =>
           log (timerFires h due w) = log w
           ∧ calls (timerFires h due w) = calls w
       | Some editor =>
           sentBy w (timerFires h due w)
           = match backendLanguage (languageId editor) with
             | Some backend =>
                 [{| code := getText editor; language := backend |}]
             | None => []
             end
       end).
Proof.
  split.
  - intros force. destruct (activeTextEditor w) as [editor|] eqn:E.
    + by rewrite sentBy_performAnalysis, E.
    + by apply performAnalysis_no_editor.
  - intros h due.
    destruct (timerFires_performAnalysis h due w) as (w0 & -> & E0 & L0 & C0).
    destruct (activeTextEditor w) as [editor|] eqn:E.
    + assert (S : sentBy w (performAnalysis false w0)
                  = sentBy w0 (performAnalysis false w0))
        by (unfold sentBy, since; by rewrite L0).
      by rewrite S, sentBy_performAnalysis, E0.
    + rewrite (performAnalysis_no_editor false w0 E0). done.
Qed.

(** A timer armed by an edit to the Python document fires after the focus
    moved to the TypeScript document: both the focus change (at 200) and the
    timer (at 600) send the TypeScript text. *)
Example timer_reads_switched_editor :
  sentBy typing
    (advance 600 (handle (200, ActiveEditorChanged (Some tsDoc)) typing))
  = [{| code := "let y = 2;"; language := "javascript" |};
     {| code := "let y = 2;"; language := "javascript" |}]
  ∧ map fst (since typing
      (advance 600 (handle (200, ActiveEditorChanged (Some tsDoc)) typing)))
    = [200; 200; 600; 600].
Proof. split; vm_compute; reflexivity. Qed.

(** ** Panel reconciliation on success *)

Lemma updateOrCreatePanel_background_absent (result : Json) (w : World) :
  currentPanel w = None → updateOrCreatePanel false result w = w.
Proof. intros E. unfold updateOrCreatePanel. by rewrite E. Qed.

Lemma updateOrCreatePanel_open (force : bool) (result : Json) (w : World)
  (p : nat) :
  currentPanel w = Some p →
  let w' := updateOrCreatePanel force result w in
  currentPanel w' = Some p ∧ nextId w' = nextId w
  ∧ since w w'
    = (now w, PostMessage p result)
      :: (if negb (visible p w) || force then [(now w, Reveal p)] else [])
  ∧ panels w'
    = (if negb (visible p w) || force then <[p := true]> (panels w)
       else panels w).
Proof.
  intros E w'. subst w'. unfold updateOrCreatePanel. rewrite E.
  replace (visible p (emit (PostMessage p result) w)) with (visible p w)
    by reflexivity.
  destruct (negb (visible p w) || force); simpl.
  - repeat split; try done.
    unfold since; simpl. rewrite <- app_assoc. apply drop_app_length.
  - repeat split; try done. apply since_emit.
Qed.

Lemma updateOrCreatePanel_manual_absent (result : Json) (w : World) :
  currentPanel w = None →
  let w' := updateOrCreatePanel true result w in
  currentPanel w' = Some (nextId w)
  ∧ panels w' = <[nextId w := true]> (panels w)
  ∧ nextId w' = S (nextId w)
  ∧ since w w'
    = [(now w, CreateWebviewPanel (nextId w)); (now w, SetHtml (nextId w));
       (now w, PostMessage (nextId w) result)].
Proof.
  intros E w'. subst w'. unfold updateOrCreatePanel. rewrite E. simpl.
  repeat split; try done.
  unfold since; simpl. rewrite <- !app_assoc. apply drop_app_length.
Qed.

Lemma bodySettled_background_absent (c : nat) (result : Json) (w : World) :
  calls w !! c
  = Some {| forcePanelCreation := false; stage := AwaitResultBody |} →
  currentPanel w = None →
  bodySettled c (BodyParsed result) w = with_calls (delete c (calls w)) w.
Proof.
  intros C E. unfold bodySettled. rewrite C.
  by rewrite updateOrCreatePanel_background_absent.
Qed.

(** C5: a successful Background analysis that finds no panel discards its
    result: no panel is created and nothing is posted or logged. *)
Theorem background_success_never_creates (c : nat) (result : Json) (w : World) :
  calls w !! c
  = Some {| forcePanelCreation := false; stage := AwaitResultBody |} →
  currentPanel w = None →
  let w' := bodySettled c (BodyParsed result) w in
  currentPanel w' = None ∧ panels w' = panels w ∧ since w w' = []
  ∧ calls w' = delete c (calls w).
Proof.
  intros C E w'. subst w'. rewrite bodySettled_background_absent by done.
  repeat split; try done. by apply since_same.
Qed.

Lemma background_success_never_creates_witness :
  currentPanel (bodySettled 0 (BodyParsed sampleResult) backgroundAwaitingBody)
  = None
  ∧ since backgroundAwaitingBody
      (bodySettled 0 (BodyParsed sampleResult) backgroundAwaitingBody) = [].
Proof.
  destruct (background_success_never_creates 0 sampleResult
              backgroundAwaitingBody) as (H1 & _ & H2 & _).
  - vm_compute. reflexivity.
  - vm_compute. reflexivity.
  - split; [exact H1 | exact H2].
Defined.

(** ** Failures *)

Lemma catchError_frame (force : bool) (message : string) (w : World) :
  let w' := catchError force message w in
  currentPanel w' = currentPanel w ∧ panels w' = panels w
  ∧ nextId w' = nextId w ∧ timers w' = timers w
  ∧ debounceTimeout w' = debounceTimeout w ∧ calls w' = calls w
  ∧ since w w'
    = (if force || negb (bool_decide (is_Some (currentPanel w)))
       then [(now w, ShowErrorMessage (cannotConnectMessage message))]
       else [])
      ++ [(now w, ConsoleError (errorDuringAnalysisMessage message))].
Proof.
  unfold catchError.
  destruct (force || negb (bool_decide (is_Some (currentPanel w)))); simpl;
    repeat split; try done.
  - unfold since; simpl. rewrite <- app_assoc. apply drop_app_length.
  - apply since_emit.
Qed.

(** C9: a failed attempt leaves the panel and the panel variable exactly as
    they were, and posts nothing to the panel. *)
Theorem failure_leaves_panel (ev : Event) (w : World) :
  failedAttempt ev w = true →
  let w' := dispatch ev w in
  currentPanel w' = currentPanel w ∧ panels w' = panels w
  ∧ filter (λ e, touchesPanel e = true) (since w w') = [].
Proof.
  intros F w'. subst w'.
  assert (K : ∀ c0 force message,
            let w1 := with_calls (delete c0 (calls w)) w in
            let w' := catchError force message w1 in
            currentPanel w' = currentPanel w ∧ panels w' = panels w
            ∧ filter (λ e, touchesPanel e = true) (since w w') = []).
  { intros c0 force message w1 w'. subst w1 w'.
    destruct (catchError_frame force message
                (with_calls (delete c0 (calls w)) w))
      as (-> & -> & _ & _ & _ & _ & S).
    repeat split; try done.
    rewrite (since_log_eq w (with_calls (delete c0 (calls w)) w)) by done.
    rewrite S. simpl.
    by destruct (force || negb (bool_decide (is_Some (currentPanel w)))). }
  destruct ev as [| | |c r|c r| | |]; try discriminate; simpl in *.
  - unfold fetchSettled.
    destruct (calls w !! c) as [[force [|st|]]|];
      try (repeat split; try done; by rewrite since_refl).
    destruct r as [message|ok statusText]; [apply K|].
    repeat split; try done. by rewrite since_same.
  - unfold bodySettled.
    destruct (calls w !! c) as [[force [|st|]]|];
      try (repeat split; try done; by rewrite since_refl).
    + destruct r as [message|errorData]; [apply K|].
      repeat split; try done.
      rewrite (since_log_eq w (with_calls (delete c (calls w)) w)) by done.
      by rewrite since_emit.
    + destruct r as [message|result]; [apply K|discriminate].
Qed.

(** ** The invariant along every run *)

Lemma Consistent_frame (w w' : World) :
  Consistent w →
  currentPanel w' = currentPanel w → panels w' = panels w →
  (nextId w ≤ nextId w')%nat →
  timers w' = timers w → debounceTimeout w' = debounceTimeout w →
  Consistent w'.
Proof.
  intros [S I T] EP EM EN ET ED. split.
  - by rewrite EP, EM.
  - intros p Hp. rewrite EM in Hp. specialize (I p Hp). lia.
  - by rewrite ET, ED.
Qed.

Lemma performAnalysis_nextId (force : bool) (w : World) :
  (nextId w ≤ nextId (performAnalysis force w))%nat.
Proof.
  unfold performAnalysis.
  destruct (activeTextEditor w) as [editor|];
    [destruct (backendLanguage (languageId editor))|];
    destruct force; simpl; lia.
Qed.

Lemma Consistent_performAnalysis (force : bool) (w : World) :
  Consistent w → Consistent (performAnalysis force w).
Proof.
  intros C. destruct (performAnalysis_frame force w) as (? & ? & ? & ? & ? & ?).
  apply (Consistent_frame w); try done. apply performAnalysis_nextId.
Qed.

Lemma Consistent_catchError (force : bool) (message : string) (w : World) :
  Consistent w → Consistent (catchError force message w).
Proof.
  intros C.
  destruct (catchError_frame force message w) as (? & ? & E & ? & ? & ? & ?).
  apply (Consistent_frame w); try done. rewrite E. lia.
Qed.

Lemma Consistent_updateOrCreatePanel (force : bool) (result : Json) (w : World) :
  Consistent w → Consistent (updateOrCreatePanel force result w).
Proof.
  intros [S I T].
  destruct (currentPanel w) as [p|] eqn:E.
  - destruct (updateOrCreatePanel_open force result w p E) as (EP & EN & _ & EM).
    destruct S as [v S].
    assert (T' : timers (updateOrCreatePanel force result w) = timers w
                 ∧ debounceTimeout (updateOrCreatePanel force result w)
                   = debounceTimeout w).
    { unfold updateOrCreatePanel. rewrite E. simpl.
      by destruct (negb _ || force). }
    destruct T' as [ET ED]. split.
    + rewrite EP, EM, S. destruct (negb (visible p w) || force); [|by exists v].
      exists true. apply insert_singleton_eq.
    + intros q Hq. rewrite EN. apply I. rewrite EM in Hq. rewrite S in *.
      destruct (negb (visible p w) || force); [|done].
      destruct (decide (p = q)) as [->|N].
      * by rewrite lookup_singleton_eq.
      * by rewrite lookup_insert_ne in Hq.
    + by rewrite ET, ED.
  - destruct force.
    + destruct (updateOrCreatePanel_manual_absent result w E)
        as (EP & EM & EN & _).
      split.
      * rewrite EP, EM, S. exists true. apply insert_empty.
      * intros q Hq. rewrite EN. rewrite EM, S, insert_empty in Hq.
        destruct (decide (q = nextId w)) as [->|N]; [lia|].
        rewrite lookup_singleton_ne in Hq by done. by destruct Hq.
      * unfold updateOrCreatePanel. rewrite E. simpl. done.
    + rewrite updateOrCreatePanel_background_absent by done.
      split; [by rewrite E | done | done].
Qed.

Lemma Consistent_with_calls (m : gmap nat Call) (w : World) :
  Consistent w → Consistent (with_calls m w).
Proof. intros C. by apply (Consistent_frame w). Qed.

Lemma Consistent_emit (e : Effect) (w : World) :
  Consistent w → Consistent (emit e w).
Proof. intros C. by apply (Consistent_frame w). Qed.

Lemma Consistent_fetchSettled (c : nat) (r : FetchOutcome) (w : World) :
  Consistent w → Consistent (fetchSettled c r w).
Proof.
  intros C. unfold fetchSettled.
  destruct (calls w !! c) as [[force [|st|]]|]; try done.
  destruct r.
  - by apply Consistent_catchError, Consistent_with_calls.
  - by apply Consistent_with_calls.
Qed.

Lemma Consistent_bodySettled (c : nat) (r : BodyOutcome) (w : World) :
  Consistent w → Consistent (bodySettled c r w).
Proof.
  intros C. unfold bodySettled.
  destruct (calls w !! c) as [[force [|st|]]|]; try done; destruct r.
  - by apply Consistent_catchError, Consistent_with_calls.
  - by apply Consistent_emit, Consistent_with_calls.
  - by apply Consistent_catchError, Consistent_with_calls.
  - by apply Consistent_updateOrCreatePanel, Consistent_with_calls.
Qed.

Lemma Consistent_onDidChangeTextDocument (d : nat) (w : World) :
  Consistent w → Consistent (onDidChangeTextDocument d w).
Proof.
  intros [S I T]. unfold onDidChangeTextDocument.
  destruct (activeTextEditor w) as [editor|]; [|by split].
  destruct (bool_decide (docId editor = d)); [|by split].
  destruct (includes handlerLanguages (languageId editor)); [|by split].
  assert (E : timers (match debounceTimeout w with
                      | Some h => clearTimeout h w
                      | None => w
                      end) = []).
  { destruct (timers w) as [|[h due] [|y q]] eqn:ET; try done.
    - by destruct (debounceTimeout w); simpl; rewrite ?ET.
    - simpl in T. rewrite T. simpl. rewrite ET. simpl.
      rewrite filter_cons, decide_False by (simpl; auto). done. }
  assert (F : ∀ w0 : World,
            (w0 = w ∨ ∃ h, w0 = clearTimeout h w) →
            currentPanel w0 = currentPanel w ∧ panels w0 = panels w
            ∧ nextId w0 = nextId w).
  { intros w0 [-> | [h ->]]; done. }
  destruct (F (match debounceTimeout w with
               | Some h => clearTimeout h w
               | None => w
               end)) as (EP & EM & EN).
  { destruct (debounceTimeout w); eauto. }
  simpl. rewrite E. split; simpl.
  - by rewrite EP, EM.
  - intros p Hp. rewrite EM in Hp. rewrite EN. specialize (I p Hp). lia.
  - done.
Qed.

Lemma Consistent_dispatch (ev : Event) (w : World) :
  Consistent w → Consistent (dispatch ev w).
Proof.
  intros C. destruct ev as [|d s|editor|c r|c r|p|p v|p m]; simpl.
  - by apply Consistent_performAnalysis.
  - apply Consistent_onDidChangeTextDocument. unfold applyEdit.
    destruct (activeTextEditor w) as [e|]; [|done].
    destruct (bool_decide (docId e = d)); [|done].
    by apply (Consistent_frame w).
  - unfold onDidChangeActiveTextEditor.
    assert (C' : Consistent (with_activeTextEditor editor w))
      by (by apply (Consistent_frame w)).
    destruct editor as [e|]; [|done].
    destruct (includes handlerLanguages (languageId e)); [|done].
    by apply Consistent_performAnalysis.
  - by apply Consistent_fetchSettled.
  - by apply Consistent_bodySettled.
  - destruct (panels w !! p) as [v|] eqn:L; [|done].
    destruct C as [S I T]. split; simpl; [|intros q Hq|done].
    + destruct (currentPanel w) as [p'|].
      * destruct S as [v' S]. rewrite S in L |- *.
        apply lookup_singleton_Some in L as [<- _]. apply delete_singleton_eq.
      * rewrite S in L. by rewrite lookup_empty in L.
    + apply I. destruct (decide (p = q)) as [->|N].
      * by rewrite lookup_delete_eq in Hq; destruct Hq.
      * by rewrite lookup_delete_ne in Hq.
  - destruct (panels w !! p) as [v0|] eqn:L; [|done].
    destruct C as [S I T]. split; simpl; [|intros q Hq|done].
    + destruct (currentPanel w) as [p'|].
      * destruct S as [v' S]. rewrite S in L |- *.
        apply lookup_singleton_Some in L as [<- _].
        exists v. apply insert_singleton_eq.
      * rewrite S in L. by rewrite lookup_empty in L.
    + apply I. destruct (decide (p = q)) as [->|N]; [by rewrite L|].
      by rewrite lookup_insert_ne in Hq.
  - destruct (panels w !! p); [|done]. by apply Consistent_emit.
Qed.

Lemma Consistent_timerFires (h : nat) (due : Z) (w : World) :
  Consistent w → Consistent (timerFires h due w).
Proof.
  intros [S I T]. apply Consistent_performAnalysis. split; simpl; try done.
  destruct (timers w) as [|x [|y q]]; try done.
  rewrite filter_cons. destruct (decide (x.1 ≠ h)); done.
Qed.

Lemma Consistent_runTimers (t : Z) (q : list (nat * Z)) (w : World) :
  Consistent w → Consistent (runTimers t q w).
Proof.
  revert w. induction q as [|[h due] q IH]; intros w C; simpl; [done|].
  destruct (bool_decide (due ≤ t)); [|done].
  by apply IH, Consistent_timerFires.
Qed.

Lemma Consistent_advance (t : Z) (w : World) :
  Consistent w → Consistent (advance t w).
Proof.
  intros C. unfold advance.
  apply (Consistent_frame (runTimers t (timers w) w)); try done.
  by apply Consistent_runTimers.
Qed.

Lemma Consistent_handle (te : Z * Event) (w : World) :
  Consistent w → Consistent (handle te w).
Proof. intros C. by apply Consistent_dispatch, Consistent_advance. Qed.

Lemma Consistent_activate : Consistent activate.
Proof. split; simpl; try done. intros p [v Hp]. by rewrite lookup_empty in Hp. Qed.

Lemma Consistent_run_from (evs : list (Z * Event)) (w : World) :
  Consistent w → Consistent (run evs w).
Proof.
  revert w. induction evs as [|te evs IH]; intros w C; simpl; [done|].
  by apply IH, Consistent_handle.
Qed.

Lemma Consistent_run (evs : list (Z * Event)) : Consistent (run evs activate).
Proof. apply Consistent_run_from, Consistent_activate. Qed.

Lemma Consistent_size (w : World) : Consistent w → (size (panels w) ≤ 1)%nat.
Proof.
  intros [S _ _]. destruct (currentPanel w) as [p|].
  - destruct S as [v ->]. by rewrite map_size_singleton.
  - rewrite S, map_size_empty. lia.
Qed.

(** Ids only grow. *)
Lemma catchError_nextId (force : bool) (message : string) (w : World) :
  nextId (catchError force message w) = nextId w.
Proof. by destruct (catchError_frame force message w) as (_ & _ & ? & _). Qed.

Lemma updateOrCreatePanel_nextId (force : bool) (result : Json) (w : World) :
  (nextId w ≤ nextId (updateOrCreatePanel force result w))%nat.
Proof.
  destruct (currentPanel w) as [p|] eqn:E.
  - destruct (updateOrCreatePanel_open force result w p E) as (_ & -> & _). lia.
  - destruct force.
    + destruct (updateOrCreatePanel_manual_absent result w E)
        as (_ & _ & -> & _). lia.
    + by rewrite updateOrCreatePanel_background_absent.
Qed.

Lemma applyEdit_nextId (d : nat) (s : string) (w : World) :
  nextId (applyEdit d s w) = nextId w.
Proof.
  unfold applyEdit. destruct (activeTextEditor w) as [e|]; [|done].
  by destruct (bool_decide (docId e = d)).
Qed.

Lemma onDidChangeTextDocument_nextId (d : nat) (w : World) :
  (nextId w ≤ nextId (onDidChangeTextDocument d w))%nat.
Proof.
  unfold onDidChangeTextDocument.
  destruct (activeTextEditor w) as [e|]; [|lia].
  destruct (bool_decide (docId e = d)); [|lia].
  destruct (includes handlerLanguages (languageId e)); [|lia].
  destruct (debounceTimeout w); simpl; lia.
Qed.

Lemma dispatch_nextId (ev : Event) (w : World) :
  (nextId w ≤ nextId (dispatch ev w))%nat.
Proof.
  destruct ev as [|d s|editor|c r|c r|p|p v|p m]; simpl.
  - apply performAnalysis_nextId.
  - etrans; [|apply onDidChangeTextDocument_nextId].
    by rewrite applyEdit_nextId.
  - unfold onDidChangeActiveTextEditor.
    destruct editor as [e|]; simpl; [|lia].
    destruct (includes handlerLanguages (languageId e)); simpl; [|lia].
    etrans; [|apply performAnalysis_nextId]. done.
  - unfold fetchSettled.
    destruct (calls w !! c) as [[force [|st|]]|]; try lia.
    destruct r; [rewrite catchError_nextId|]; simpl; lia.
  - unfold bodySettled.
    destruct (calls w !! c) as [[force [|st|]]|]; try lia; destruct r;
      rewrite ?catchError_nextId; simpl; try lia.
    etrans; [|apply updateOrCreatePanel_nextId]. done.
  - destruct (panels w !! p); simpl; lia.
  - destruct (panels w !! p); simpl; lia.
  - destruct (panels w !! p); simpl; lia.
Qed.

Lemma runTimers_nextId (t : Z) (q : list (nat * Z)) (w : World) :
  (nextId w ≤ nextId (runTimers t q w))%nat.
Proof.
  revert w. induction q as [|[h due] q IH]; intros w; simpl; [lia|].
  destruct (bool_decide (due ≤ t)); [|lia].
  etrans; [|apply IH]. unfold timerFires.
  etrans; [|apply performAnalysis_nextId]. done.
Qed.

Lemma run_nextId (evs : list (Z * Event)) (w : World) :
  (nextId w ≤ nextId (run evs w))%nat.
Proof.
  revert w. induction evs as [|te evs IH]; intros w; simpl; [lia|].
  etrans; [|apply IH]. unfold handle.
  etrans; [|apply dispatch_nextId]. unfold advance. simpl.
  apply runTimers_nextId.
Qed.

Lemma runTimers_panel_frame (t : Z) (q : list (nat * Z)) (w : World) :
  currentPanel (runTimers t q w) = currentPanel w
  ∧ panels (runTimers t q w) = panels w.
Proof.
  revert w. induction q as [|[h due] q IH]; intros w; simpl; [done|].
  destruct (bool_decide (due ≤ t)); [|done].
  destruct (IH (timerFires h due w)) as [-> ->]. unfold timerFires.
  by destruct (performAnalysis_frame false
                 (with_now (Z.max (now w) due)
                    (with_timers (filter (λ x : nat * Z, x.1 ≠ h) (timers w)) w)))
    as (-> & _ & _ & _ & _ & ->).
Qed.

Lemma advance_panel_frame (t : Z) (w : World) :
  currentPanel (advance t w) = currentPanel w
  ∧ panels (advance t w) = panels w.
Proof. unfold advance; simpl. apply runTimers_panel_frame. Qed.

(** In a consistent world every queued timer is the one [debounceTimeout]
    holds, which is what [debounce_burst] below asks of its start. *)
Lemma Consistent_timers_owned (w : World) :
  Consistent w →
  Forall (λ x : nat * Z, debounceTimeout w = Some x.1) (timers w).
Proof.
  intros [_ _ T]. destruct (timers w) as [|x [|y q]]; [done| |done].
  by repeat constructor.
Qed.

(** ** The log only grows *)

Lemma emit_prefix (e : Effect) (w : World) : log w `prefix_of` log (emit e w).
Proof. by apply prefix_app_r. Qed.

Lemma performAnalysis_prefix (force : bool) (w : World) :
  log w `prefix_of` log (performAnalysis force w).
Proof.
  unfold performAnalysis.
  destruct (activeTextEditor w) as [editor|];
    [destruct (backendLanguage (languageId editor))|];
    destruct force; simpl; try done; by repeat apply prefix_app_r.
Qed.

Lemma catchError_prefix (force : bool) (message : string) (w : World) :
  log w `prefix_of` log (catchError force message w).
Proof.
  unfold catchError.
  destruct (force || negb (bool_decide (is_Some (currentPanel w)))); simpl;
    by repeat apply prefix_app_r.
Qed.

Lemma updateOrCreatePanel_prefix (force : bool) (result : Json) (w : World) :
  log w `prefix_of` log (updateOrCreatePanel force result w).
Proof.
  unfold updateOrCreatePanel. destruct (currentPanel w) as [p|].
  - destruct (negb _ || force); simpl; by repeat apply prefix_app_r.
  - destruct force; simpl; [|done]. by repeat apply prefix_app_r.
Qed.

Lemma dispatch_prefix (ev : Event) (w : World) :
  log w `prefix_of` log (dispatch ev w).
Proof.
  destruct ev as [|d s|editor|c r|c r|p|p v|p m]; simpl.
  - apply performAnalysis_prefix.
  - unfold onDidChangeTextDocument, applyEdit.
    destruct (activeTextEditor w) as [e|] eqn:E; [|by rewrite E].
    destruct (bool_decide (docId e = d)) eqn:B; simpl; [|by rewrite E, B].
    rewrite bool_decide_eq_true_2 by done.
    destruct (includes handlerLanguages (languageId e)); [|done].
    by destruct (debounceTimeout w).
  - unfold onDidChangeActiveTextEditor. destruct editor as [e|]; [|done].
    destruct (includes handlerLanguages (languageId e)); [|done].
    apply (performAnalysis_prefix false (with_activeTextEditor (Some e) w)).
  - unfold fetchSettled.
    destruct (calls w !! c) as [[force [|st|]]|]; try done.
    destruct r; [|done].
    apply (catchError_prefix force message (with_calls (delete c (calls w)) w)).
  - unfold bodySettled.
    destruct (calls w !! c) as [[force [|st|]]|]; try done; destruct r.
    + apply (catchError_prefix force message
               (with_calls (delete c (calls w)) w)).
    + apply (emit_prefix _ (with_calls (delete c (calls w)) w)).
    + apply (catchError_prefix force message
               (with_calls (delete c (calls w)) w)).
    + apply (updateOrCreatePanel_prefix force value
               (with_calls (delete c (calls w)) w)).
  - by destruct (panels w !! p).
  - by destruct (panels w !! p).
  - destruct (panels w !! p); [|done]. apply emit_prefix.
Qed.

Lemma runTimers_prefix (t : Z) (q : list (nat * Z)) (w : World) :
  log w `prefix_of` log (runTimers t q w).
Proof.
  revert w. induction q as [|[h due] q IH]; intros w; simpl; [done|].
  destruct (bool_decide (due ≤ t)); [|done].
  etrans; [|apply IH]. unfold timerFires.
  etrans; [|apply performAnalysis_prefix]. done.
Qed.

Lemma handle_prefix (te : Z * Event) (w : World) :
  log w `prefix_of` log (handle te w).
Proof.
  unfold handle. etrans; [|apply dispatch_prefix].
  unfold advance. simpl. apply runTimers_prefix.
Qed.

Lemma run_prefix (evs : list (Z * Event)) (w : World) :
  log w `prefix_of` log (run evs w).
Proof.
  revert w. induction evs as [|te evs IH]; intros w; simpl; [done|].
  etrans; [apply (handle_prefix te)|apply IH].
Qed.

(** So [since] is the exact difference of the two logs along a run. *)
Lemma run_log_since (evs : list (Z * Event)) (w : World) :
  log (run evs w) = log w ++ since w (run evs w).
Proof.
  destruct (run_prefix evs w) as [k E]. unfold since. rewrite E.
  by rewrite drop_app_length.
Qed.

(** ** The single panel *)

(** C4: with the panel open, a successful Manual analysis posts its result to
    the existing panel and reveals it, constructs nothing, and along every run
    at most one panel is alive. *)
Theorem manual_success_reuses_panel (evs : list (Z * Event)) (c : nat)
  (result : Json) (p : nat) :
  let w := run evs activate in
  currentPanel w = Some p →
  calls w !! c
  = Some {| forcePanelCreation := true; stage := AwaitResultBody |} →
  let w' := bodySettled c (BodyParsed result) w in
  currentPanel w' = Some p
  ∧ since w w' = [(now w, PostMessage p result); (now w, Reveal p)]
  ∧ nextId w' = nextId w
  ∧ dom (panels w) = {[p]} ∧ dom (panels w') = {[p]}
  ∧ (∀ evs', size (panels (run evs' w')) ≤ 1)%nat
  ∧ (∀ evs0, size (panels (run evs0 activate)) ≤ 1)%nat.
Proof.
  intros w E C w'.
  assert (K : Consistent w) by apply Consistent_run.
  assert (K' : Consistent w') by (by apply Consistent_bodySettled).
  subst w'. unfold bodySettled in *. rewrite C in *.
  destruct (updateOrCreatePanel_open true result
              (with_calls (delete c (calls w)) w) p E) as (EP & EN & ES & EM).
  rewrite orb_true_r in ES, EM.
  repeat split.
  - done.
  - by rewrite (since_log_eq w (with_calls (delete c (calls w)) w)).
  - done.
  - destruct K as [S _ _]. rewrite E in S. destruct S as [v ->].
    by rewrite dom_singleton_L.
  - destruct K' as [S _ _]. rewrite EP in S. destruct S as [v ->].
    by rewrite dom_singleton_L.
  - intros evs'. by apply Consistent_size, Consistent_run_from.
  - intros evs0. apply Consistent_size, Consistent_run.
Qed.

Lemma manual_success_reuses_panel_witness :
  since (run manualAgainTrace activate)
    (bodySettled 3 (BodyParsed sampleResult) (run manualAgainTrace activate))
  = [(50, PostMessage 2 sampleResult); (50, Reveal 2)].
Proof.
  destruct (manual_success_reuses_panel manualAgainTrace 3 sampleResult 2)
    as (_ & H & _).
  - vm_compute. reflexivity.
  - vm_compute. reflexivity.
  - exact H.
Defined.

(** C6: closing the panel clears [currentPanel]; while it stays cleared, a
    successful Background analysis creates nothing, and a successful Manual
    analysis creates a fresh panel and posts the result to it. *)
Theorem closed_panel_recreated_only_manually (evs evs' : list (Z * Event))
  (t : Z) (p : nat) :
  let w := run evs activate in
  currentPanel w = Some p →
  let w1 := handle (t, PanelClosed p) w in
  let w2 := run evs' w1 in
  currentPanel w1 = None ∧ panels w1 = ∅
  ∧ (∀ c result,
       currentPanel w2 = None →
       calls w2 !! c
       = Some {| forcePanelCreation := false; stage := AwaitResultBody |} →
       let w3 := bodySettled c (BodyParsed result) w2 in
       currentPanel w3 = None ∧ panels w3 = ∅ ∧ since w2 w3 = [])
  ∧ (∀ c result,
       currentPanel w2 = None →
       calls w2 !! c
       = Some {| forcePanelCreation := true; stage := AwaitResultBody |} →
       let w3 := bodySettled c (BodyParsed result) w2 in
       ∃ q, q ≠ p ∧ currentPanel w3 = Some q ∧ panels w3 = {[q := true]}
            ∧ since w2 w3
              = [(now w2, CreateWebviewPanel q); (now w2, SetHtml q);
                 (now w2, PostMessage q result)]).
Proof.
  intros w E w1 w2.
  assert (K : Consistent w) by apply Consistent_run.
  assert (K1 : Consistent w1) by (by apply Consistent_handle).
  assert (K2 : Consistent w2) by (by apply Consistent_run_from).
  destruct (advance_panel_frame t w) as [AP AM].
  assert (L : panels w !! p = Some true ∨ panels w !! p = Some false).
  { destruct K as [S _ _]. rewrite E in S. destruct S as [[|] ->];
      rewrite lookup_singleton_eq; auto. }
  assert (E1 : currentPanel w1 = None).
  { subst w1. unfold handle. cbn [fst snd dispatch]. rewrite AM.
    by destruct L as [-> | ->]. }
  assert (P2 : ∀ w0, Consistent w0 → currentPanel w0 = None → panels w0 = ∅).
  { intros w0 [S _ _] E0. by rewrite E0 in S. }
  assert (N : (p < nextId w2)%nat).
  { eapply Nat.lt_le_trans; [|apply run_nextId].
    eapply Nat.lt_le_trans; [|apply dispatch_nextId].
    eapply Nat.lt_le_trans; [|apply runTimers_nextId].
    destruct K as [_ I _]. apply I. destruct L as [-> | ->]; done. }
  split; [done|]. split; [by apply P2|]. split.
  - intros c result E2 C w3. subst w3.
    rewrite bodySettled_background_absent by done.
    split; [exact E2|]. split; [by apply (P2 w2) | by apply since_same].
  - intros c result E2 C w3. subst w3. unfold bodySettled. rewrite C.
    destruct (updateOrCreatePanel_manual_absent result
                (with_calls (delete c (calls w2)) w2) E2)
      as (EP & EM & _ & ES).
    exists (nextId w2). repeat split.
    + simpl in N. lia.
    + done.
    + rewrite EM. simpl. rewrite (P2 w2 K2 E2). apply insert_empty.
    + by rewrite (since_log_eq w2 (with_calls (delete c (calls w2)) w2)).
Qed.

Lemma closed_panel_recreated_only_manually_witness :
  ∃ q, q ≠ 2%nat
       ∧ currentPanel
           (bodySettled 3 (BodyParsed sampleResult)
              (run [] (handle (55, PanelClosed 2)
                         (run manualAgainTrace activate))))
         = Some q.
Proof.
  destruct (closed_panel_recreated_only_manually manualAgainTrace [] 55 2)
    as (_ & _ & _ & H).
  - vm_compute. reflexivity.
  - destruct (H 3%nat sampleResult) as (q & N & E & _).
    + vm_compute. reflexivity.
    + vm_compute. reflexivity.
    + exists q. split; [exact N | exact E].
Defined.

Lemma failure_leaves_panel_witness :
  currentPanel
    (dispatch (BodySettles 4 (BodyParsed sampleError)) backgroundServiceError)
  = currentPanel backgroundServiceError.
Proof.
  destruct (failure_leaves_panel (BodySettles 4 (BodyParsed sampleError))
              backgroundServiceError) as (H & _).
  - vm_compute. reflexivity.
  - exact H.
Defined.

(** ** When failures are shown *)

(** The [catch] block shows its popup exactly when the attempt was Manual or
    no panel is open. *)
Lemma transport_error_notice (c : nat) (force : bool) (message : string)
  (w : World) :
  calls w !! c = Some {| forcePanelCreation := force; stage := AwaitFetch |} →
  errorNoticeShown w (fetchSettled c (FetchRejected message) w)
  = force || negb (bool_decide (is_Some (currentPanel w))).
Proof.
  intros C. unfold errorNoticeShown, fetchSettled. rewrite C.
  rewrite (since_log_eq w (with_calls (delete c (calls w)) w)) by done.
  destruct (catchError_frame force message (with_calls (delete c (calls w)) w))
    as (_ & _ & _ & _ & _ & _ & ->).
  simpl. by destruct (force || negb (bool_decide (is_Some (currentPanel w)))).
Qed.


(** C1: at this input the code departs from the claim.  The panel is open,
    the attempt is a Background one started by the debounce timer, the service
    answers with status 500 and a JSON body, and an error popup is shown all
    the same. *)
Theorem service_error_popup_in_background :
  currentPanel backgroundServiceError = Some 2%nat
  ∧ calls backgroundServiceError !! 4%nat
    = Some {| forcePanelCreation := false;
              stage := AwaitErrorBody "Internal Server Error" |}
  ∧ since backgroundServiceError
      (handle (660, BodySettles 4 (BodyParsed sampleError))
         backgroundServiceError)
    = [(660, ShowErrorMessage "Analysis failed: boom")]
  ∧ errorNoticeShown backgroundServiceError
      (handle (660, BodySettles 4 (BodyParsed sampleError))
         backgroundServiceError)
    = true.
Proof. repeat split; vm_compute; reflexivity. Qed.

(** ** Events that bypass the debounce timer *)

Lemma runTimers_idle (t : Z) (w : World) :
  Forall (λ x : nat * Z, t < x.2) (timers w) →
  runTimers t (timers w) w = w.
Proof.
  intros F. destruct (timers w) as [|[h due] q]; simpl; [done|].
  apply Forall_cons in F as [F _]. simpl in F.
  rewrite bool_decide_eq_false_2 by lia. done.
Qed.

Lemma advance_idle (t : Z) (w : World) :
  Forall (λ x : nat * Z, t < x.2) (timers w) →
  advance t w = with_now (Z.max (now w) t) w.
Proof. intros F. unfold advance. by rewrite runTimers_idle. Qed.

(** C2, as the code has it: a command, or a focus change to an editor whose
    language the handler accepts, starts an attempt at once; neither touches
    the debounce timer, which stays in the queue. *)
Theorem bypass_keeps_timer (w : World) (t : Z) (ev : Event) :
  (ev = CommandInvoked ∨ ∃ editor, ev = ActiveEditorChanged editor) →
  Forall (λ x : nat * Z, t < x.2) (timers w) →
  let w0 := with_now (Z.max (now w) t) w in
  let w' := handle (t, ev) w in
  timers w' = timers w ∧ debounceTimeout w' = debounceTimeout w
  ∧ w' = match ev with
         | CommandInvoked => performAnalysis true w0
         | ActiveEditorChanged (Some editor) =>
             if includes handlerLanguages (languageId editor)
             then performAnalysis false
                    (with_activeTextEditor (Some editor) w0)
             else with_activeTextEditor (Some editor) w0
         | ActiveEditorChanged None => with_activeTextEditor None w0
         | _ => w'
         end.
Proof.
  intros Hev F w0 w'. subst w'. unfold handle. cbn [fst snd].
  rewrite advance_idle by done. fold w0.
  destruct Hev as [-> | [editor ->]]; cbn [dispatch].
  - unfold onCommand.
    by destruct (performAnalysis_frame true w0) as (_ & -> & _ & _ & -> & _).
  - unfold onDidChangeActiveTextEditor. destruct editor as [e|]; [|done].
    destruct (includes handlerLanguages (languageId e)); [|done].
    by destruct (performAnalysis_frame false
                   (with_activeTextEditor (Some e) w0))
      as (_ & -> & _ & _ & -> & _).
Qed.

Lemma bypass_keeps_timer_witness :
  timers (handle (200, CommandInvoked) typing) = timers typing.
Proof.
  destruct (bypass_keeps_timer typing 200 CommandInvoked) as (H & _).
  - left. reflexivity.
  - vm_compute. repeat constructor.
  - exact H.
Defined.

(** C2, as stated, fails: with the timer of an edit at time 100 pending, a
    command or a focus change at time 200 leaves it in the queue, and at time
    600 it fires and sends a second, Background request. *)
Lemma bypass_does_not_cancel_timer :
  timers typing = [(1%nat, 600)]
  ∧ timers (handle (200, CommandInvoked) typing) = [(1%nat, 600)]
  ∧ timers (handle (200, ActiveEditorChanged (Some tsDoc)) typing)
    = [(1%nat, 600)]
  ∧ since (handle (200, CommandInvoked) typing)
      (advance 600 (handle (200, CommandInvoked) typing))
    = [(600, ConsoleLog "Debounced analysis triggered for python code.");
       (600, Fetch 3 API_URL {| code := "x = 2"; language := "python" |})].
Proof. repeat split; vm_compute; reflexivity. Qed.

(** ** Debouncing *)

Lemma run_cons (te : Z * Event) (evs : list (Z * Event)) (w : World) :
  run (te :: evs) w = run evs (handle te w).
Proof. reflexivity. Qed.

Lemma burst_cons (d : nat) (e : Z * string) (edits : list (Z * string)) :
  burst d (e :: edits) = (e.1, TextDocumentChanged d e.2) :: burst d edits.
Proof. reflexivity. Qed.

(** One edit to the focused document: every timer the handle owns is cleared
    and one new timer is armed; nothing is logged or sent. *)
Lemma edit_rearms (w : World) (editor : TextDocument) (s : string) (t : Z) :
  activeTextEditor w = Some editor →
  includes handlerLanguages (languageId editor) = true →
  Forall (λ x : nat * Z, debounceTimeout w = Some x.1 ∧ t < x.2) (timers w) →
  now w ≤ t →
  let w' := handle (t, TextDocumentChanged (docId editor) s) w in
  Armed editor s t w' ∧ log w' = log w ∧ calls w' = calls w
  ∧ nextId w' = S (nextId w).
Proof.
  intros E L F N w'. subst w'. unfold handle. cbn [fst snd].
  rewrite advance_idle by (eapply Forall_impl; [exact F|]; by intros x [_ ?]).
  cbn [dispatch]. unfold applyEdit. cbn [activeTextEditor with_now]. rewrite E.
  rewrite bool_decide_eq_true_2 by done.
  unfold onDidChangeTextDocument. cbn [activeTextEditor with_activeTextEditor].
  cbn [docId languageId]. rewrite bool_decide_eq_true_2 by done. rewrite L.
  cbn [debounceTimeout with_now with_activeTextEditor].
  assert (Q : ∀ h, debounceTimeout w = Some h →
                   filter (λ x : nat * Z, x.1 ≠ h) (timers w) = []).
  { intros h D. induction (timers w) as [|x q IH]; [done|].
    apply Forall_cons in F as [[Fx _] Fq]. rewrite filter_cons.
    rewrite decide_False by (rewrite D in Fx; naive_solver). by apply IH. }
  assert (Q' : debounceTimeout w = None → timers w = []).
  { intros D. destruct (timers w) as [|x q]; [done|].
    apply Forall_cons in F as [[Fx _] _]. congruence. }
  replace (Z.max (now w) t) with t by lia.
  destruct (debounceTimeout w) as [h|] eqn:D; simpl.
  - rewrite (Q h) by done. by split.
  - rewrite Q' by done. by split.
Qed.

(** The rest of a burst, from an armed state. *)
Lemma burst_rearms (editor : TextDocument) (rest : list (Z * string)) :
  includes handlerLanguages (languageId editor) = true →
  ∀ (w : World) (s : string) (t : Z),
    Armed editor s t w → withinDelay t rest →
    let final := default (t, s) (last rest) in
    let w' := run (burst (docId editor) rest) w in
    Armed editor final.2 final.1 w' ∧ log w' = log w ∧ calls w' = calls w
    ∧ nextId w' = (nextId w + length rest)%nat.
Proof.
  intros L. induction rest as [|[t1 s1] rest IH]; intros w s t A W.
  - simpl. repeat split; try done; try apply A; lia.
  - destruct W as (W1 & W2 & W3). cbn [fst] in W1, W2, W3.
    destruct A as [AE AC AT AH].
    destruct (edit_rearms w
                {| docId := docId editor; languageId := languageId editor;
                   getText := s |} s1 t1 AE L)
      as (A1 & L1 & C1 & N1).
    { rewrite AT, AH. repeat constructor. simpl. lia. }
    { lia. }
    cbn [docId] in *.
    assert (A1' : Armed editor s1 t1
                    (handle (t1, TextDocumentChanged (docId editor) s1) w)).
    { destruct A1 as [? ? ? ?]. by split. }
    destruct (IH _ s1 t1 A1' W3) as (A2 & L2 & C2 & N2).
    rewrite burst_cons, run_cons. cbn [fst snd length]. rewrite last_cons.
    rewrite L2, C2, N2, L1, C1, N1.
    destruct (last rest); simpl in *; (split; [exact A2|]);
      repeat split; lia.
Qed.

(** The armed timer comes due: one Background attempt on the focused text. *)
Lemma armed_fires (editor : TextDocument) (backend s : string) (t T : Z)
  (w : World) :
  backendLanguage (languageId editor) = Some backend →
  Armed editor s t w → t + DEBOUNCE_DELAY_MS ≤ T →
  let w' := advance T w in
  since w w'
  = [(t + DEBOUNCE_DELAY_MS, ConsoleLog (debouncedMessage backend));
     (t + DEBOUNCE_DELAY_MS,
      Fetch (nextId w) API_URL {| code := s; language := backend |})]
  ∧ timers w' = []
  ∧ calls w'
    = <[nextId w := {| forcePanelCreation := false; stage := AwaitFetch |}]>
        (calls w).
Proof.
  intros B [AE AC AT AH] HT w'. subst w'. unfold advance. rewrite AT.
  cbn [runTimers]. rewrite bool_decide_eq_true_2 by done.
  unfold timerFires. rewrite AT. rewrite filter_cons, decide_False by naive_solver.
  rewrite filter_nil.
  set (w0 := with_now _ (with_timers [] w)).
  assert (E0 : activeTextEditor w0
               = Some {| docId := docId editor; languageId := languageId editor;
                         getText := s |}) by done.
  assert (N0 : now w0 = t + DEBOUNCE_DELAY_MS).
  { subst w0. simpl. rewrite AC. unfold DEBOUNCE_DELAY_MS. lia. }
  destruct (performAnalysis_frame false w0) as (_ & _ & _ & _ & ET & _).
  repeat split.
  - rewrite (since_log_eq w w0) by done.
    erewrite since_app; [|by apply (performAnalysis_supported_log false w0 _ backend E0 B)].
    by rewrite N0.
  - cbn [timers with_now]. by rewrite ET.
  - cbn [calls with_now].
    by rewrite (performAnalysis_supported_calls false w0 _ backend E0 B).
Qed.

(** C3: a burst of edits to the focused, supported document, each less than
    [DEBOUNCE_DELAY_MS] after the previous one, yields exactly one Background
    attempt, [DEBOUNCE_DELAY_MS] after the last edit, carrying the text of the
    last edit. *)
Theorem debounce_burst (w : World) (editor : TextDocument) (backend : string)
  (first : Z * string) (rest : list (Z * string)) (T : Z) :
  activeTextEditor w = Some editor →
  backendLanguage (languageId editor) = Some backend →
  Forall (λ x : nat * Z, debounceTimeout w = Some x.1 ∧ first.1 < x.2)
    (timers w) →
  now w ≤ first.1 →
  withinDelay first.1 rest →
  let final := default first (last rest) in
  final.1 + DEBOUNCE_DELAY_MS ≤ T →
  let w' := advance T (run (burst (docId editor) (first :: rest)) w) in
  let c := (nextId w + S (length rest))%nat in
  since w w'
  = [(final.1 + DEBOUNCE_DELAY_MS, ConsoleLog (debouncedMessage backend));
     (final.1 + DEBOUNCE_DELAY_MS,
      Fetch c API_URL {| code := final.2; language := backend |})]
  ∧ sentBy w w' = [{| code := final.2; language := backend |}]
  ∧ timers w' = []
  ∧ calls w'
    = <[c := {| forcePanelCreation := false; stage := AwaitFetch |}]> (calls w).
Proof.
  intros E B F N W final HT w' c.
  assert (L : includes handlerLanguages (languageId editor) = true).
  { rewrite includes_backendLanguage, B. by apply bool_decide_eq_true_2. }
  destruct first as [t1 s1]. cbn [fst snd] in *.
  destruct (edit_rearms w editor s1 t1 E L F N) as (A1 & L1 & C1 & N1).
  destruct (burst_rearms editor rest L _ s1 t1 A1 W) as (A2 & L2 & C2 & N2).
  fold final in A2.
  destruct (armed_fires editor backend final.2 final.1 T _ B A2 HT)
    as (S3 & T3 & C3).
  subst w'. rewrite burst_cons, run_cons. cbn [fst snd].
  set (wN := run (burst (docId editor) rest)
               (handle (t1, TextDocumentChanged (docId editor) s1) w)) in *.
  assert (EC : nextId wN = c) by (subst c; lia).
  assert (ES : since w (advance T wN) = since wN (advance T wN)).
  { apply since_log_eq. congruence. }
  rewrite EC in S3, C3. unfold sentBy. rewrite ES, S3, T3, C3, C2, C1. done.
Qed.

Lemma debounce_burst_witness :
  sentBy focused
    (advance 1200
       (run (burst 1 [(100, "x = 2"); (300, "x = 23"); (700, "x = 234")])
          focused))
  = [{| code := "x = 234"; language := "python" |}]
  ∧ map fst
      (since focused
         (advance 1200
            (run (burst 1 [(100, "x = 2"); (300, "x = 23"); (700, "x = 234")])
               focused)))
    = [1200; 1200].
Proof.
  destruct (debounce_burst focused pyDoc "python" (100, "x = 2")
              [(300, "x = 23"); (700, "x = 234")] 1200)
    as (H1 & H2 & _).
  - vm_compute. reflexivity.
  - vm_compute. reflexivity.
  - vm_compute. constructor.
  - vm_compute. discriminate.
  - vm_compute. repeat split; discriminate.
  - vm_compute. discriminate.
  - split; [exact H2|]. change pyDoc.(docId) with 1%nat in H1.
    rewrite H1. reflexivity.
Defined.

(** ** Further properties of the handlers *)

(** X1: along every run at most one timer is queued, and it is the one whose
    handle [debounceTimeout] holds (lines 26-33). *)
Theorem single_pending_timer (evs : list (Z * Event)) :
  let w := run evs activate in
  (length (timers w) ≤ 1)%nat
  ∧ ∀ x, x ∈ timers w → debounceTimeout w = Some x.1.
Proof.
  intros w. destruct (Consistent_run evs) as [_ _ T]. fold w in T.
  destruct (timers w) as [|x [|y q]]; [| |done].
  - split; [simpl; lia|]. intros x Hx. by apply elem_of_nil in Hx.
  - split; [simpl; lia|]. intros y Hy. apply list_elem_of_singleton in Hy.
    by subst.
Qed.

Lemma single_pending_timer_witness :
  debounceTimeout (run typingTrace activate) = Some 1%nat.
Proof.
  destruct (single_pending_timer typingTrace) as (_ & H).
  apply (H (1%nat, 600)). vm_compute. constructor.
Defined.

(** X3: how many popups an attempt shows when it starts: a Manual attempt
    always exactly one (missing editor, unsupported language or "Analyzing"),
    a Background attempt never any (lines 55-97). *)
Theorem popups_at_start (force : bool) (w : World) :
  length (filter (λ e, isPopup e = true) (since w (performAnalysis force w)))
  = if force then 1%nat else 0%nat.
Proof.
  destruct (activeTextEditor w) as [editor|] eqn:E.
  - destruct (backendLanguage (languageId editor)) as [backend|] eqn:L.
    + erewrite since_app by (by apply performAnalysis_supported_log).
      by destruct force.
    + rewrite (performAnalysis_unsupported _ _ _ E L).
      destruct force; [by rewrite since_emit | by rewrite since_refl].
  - rewrite (performAnalysis_no_editor _ _ E).
    destruct force; [by rewrite since_emit | by rewrite since_refl].
Qed.

(** X4: a focus change shows no popup; it sends one request, built from the
    newly focused editor, when that editor's language is supported, and
    nothing otherwise: the handler's language list (line 42) and the
    [switch] (lines 69-86) accept the same tags. *)
Theorem focus_change_attempt (editor : option TextDocument) (w : World) :
  let w' := dispatch (ActiveEditorChanged editor) w in
  filter (λ e, isPopup e = true) (since w w') = []
  ∧ sentBy w w'
    = match editor with
      | Some e =>
          match backendLanguage (languageId e) with
          | Some backend => [{| code := getText e; language := backend |}]
          | None => []
          end
      | None => []
      end
  ∧ activeTextEditor w' = editor.
Proof.
  intros w'. subst w'. cbn [dispatch]. unfold onDidChangeActiveTextEditor.
  destruct editor as [e|];
    [|unfold sentBy; by rewrite (since_same w (with_activeTextEditor None w))].
  set (w0 := with_activeTextEditor (Some e) w).
  assert (E0 : activeTextEditor w0 = Some e) by done.
  rewrite includes_backendLanguage. unfold sentBy.
  destruct (backendLanguage (languageId e)) as [backend|] eqn:L.
  - rewrite bool_decide_eq_true_2 by done.
    rewrite (since_log_eq w w0) by done.
    erewrite since_app by (by apply (performAnalysis_supported_log false w0 e)).
    destruct (performAnalysis_frame false w0) as (_ & _ & -> & _). done.
  - rewrite bool_decide_eq_false_2 by (by intros [? ?]).
    by rewrite (since_same w w0).
Qed.

(** X5: an edit to a document that is not the focused one, or whose language
    the handler does not accept, arms no timer and logs and sends nothing
    (lines 21-24). *)
Theorem edit_elsewhere_ignored (w : World) (d : nat) (s : string) :
  match activeTextEditor w with
  | Some e => docId e ≠ d ∨ backendLanguage (languageId e) = None
  | None => True
  end →
  let w' := dispatch (TextDocumentChanged d s) w in
  timers w' = timers w ∧ debounceTimeout w' = debounceTimeout w
  ∧ log w' = log w ∧ calls w' = calls w ∧ nextId w' = nextId w
  ∧ match activeTextEditor w with
    | Some e => docId e ≠ d → w' = w
    | None => w' = w
    end.
Proof.
  intros H w'. subst w'. cbn [dispatch]. unfold applyEdit.
  destruct (activeTextEditor w) as [e|] eqn:E.
  - destruct (decide (docId e = d)) as [<-|N].
    + destruct H as [H|H]; [done|].
      rewrite bool_decide_eq_true_2 by done.
      unfold onDidChangeTextDocument. cbn [activeTextEditor with_activeTextEditor].
      cbn [docId languageId]. rewrite bool_decide_eq_true_2 by done.
      rewrite includes_backendLanguage, H.
      rewrite bool_decide_eq_false_2 by (by intros [? ?]). done.
    + rewrite bool_decide_eq_false_2 by done.
      unfold onDidChangeTextDocument. rewrite E.
      rewrite bool_decide_eq_false_2 by done. done.
  - unfold onDidChangeTextDocument. by rewrite E.
Qed.

Lemma edit_elsewhere_ignored_witness :
  timers (dispatch (TextDocumentChanged 2 "let y = 3;") typing)
  = timers typing.
Proof.
  destruct (edit_elsewhere_ignored typing 2 "let y = 3;") as (H & _).
  - vm_compute. left. discriminate.
  - exact H.
Defined.

Lemma edit_log (d : nat) (s : string) (w : World) :
  log (dispatch (TextDocumentChanged d s) w) = log w.
Proof.
  cbn [dispatch]. unfold onDidChangeTextDocument, applyEdit.
  destruct (activeTextEditor w) as [e|] eqn:E; [|by rewrite E].
  destruct (bool_decide (docId e = d)) eqn:B; simpl; [|by rewrite E, B].
  rewrite bool_decide_eq_true_2 by done.
  destruct (includes handlerLanguages (languageId e)); [|done].
  by destruct (debounceTimeout w).
Qed.

Lemma updateOrCreatePanel_sends_nothing (force : bool) (result : Json)
  (w : World) :
  omap requestOf (since w (updateOrCreatePanel force result w)) = [].
Proof.
  destruct (currentPanel w) as [p|] eqn:E.
  - destruct (updateOrCreatePanel_open force result w p E) as (_ & _ & -> & _).
    by destruct (negb (visible p w) || force).
  - destruct force.
    + by destruct (updateOrCreatePanel_manual_absent result w E)
        as (_ & _ & _ & ->).
    + rewrite updateOrCreatePanel_background_absent by done.
      by rewrite since_refl.
Qed.

Lemma catchError_sends_nothing (force : bool) (message : string) (w : World) :
  omap requestOf (since w (catchError force message w)) = [].
Proof.
  destruct (catchError_frame force message w) as (_ & _ & _ & _ & _ & _ & ->).
  by destruct (force || negb (bool_decide (is_Some (currentPanel w)))).
Qed.

(** X6: only the command and a focus change send a request when they are
    delivered: an edit waits for its timer, and a response, whether a failure
    or a success, is never followed by a retry. *)
Theorem only_triggers_send (ev : Event) (w : World) :
  ev ≠ CommandInvoked → (∀ editor, ev ≠ ActiveEditorChanged editor) →
  sentBy w (dispatch ev w) = [].
Proof.
  intros H1 H2. unfold sentBy.
  destruct ev as [|d s|editor|c r|c r|p|p v|p m]; [done| |by destruct (H2 editor)| | | | |].
  - by rewrite since_same by apply edit_log.
  - cbn [dispatch]. unfold fetchSettled.
    destruct (calls w !! c) as [[force [|st|]]|]; rewrite ?since_refl; try done.
    destruct r as [message|ok statusText].
    + rewrite (since_log_eq w (with_calls (delete c (calls w)) w)) by done.
      apply catchError_sends_nothing.
    + by rewrite since_same.
  - cbn [dispatch]. unfold bodySettled.
    destruct (calls w !! c) as [[force [|st|]]|]; rewrite ?since_refl; try done;
      rewrite (since_log_eq w (with_calls (delete c (calls w)) w)) by done;
      destruct r as [message|value].
    + apply catchError_sends_nothing.
    + by rewrite since_emit.
    + apply catchError_sends_nothing.
    + apply updateOrCreatePanel_sends_nothing.
  - cbn [dispatch]. destruct (panels w !! p); by rewrite since_same.
  - cbn [dispatch]. destruct (panels w !! p); by rewrite since_same.
  - cbn [dispatch]. destruct (panels w !! p); [|by rewrite since_refl].
    unfold onDidReceiveMessage. by rewrite since_emit.
Qed.

Lemma only_triggers_send_witness :
  sentBy backgroundServiceError
    (dispatch (BodySettles 4 (BodyParsed sampleError)) backgroundServiceError)
  = [].
Proof.
  apply (only_triggers_send (BodySettles 4 (BodyParsed sampleError))
           backgroundServiceError).
  - discriminate.
  - intros editor. discriminate.
Defined.

(** ** Further properties of failures *)

(** X7: when [fetch] rejects, the error is always written to the console, the
    connection popup is shown only for a Manual attempt or with no panel
    open, and the call is over (lines 157-164). *)
Theorem fetch_rejection_report (c : nat) (force : bool) (message : string)
  (w : World) :
  calls w !! c = Some {| forcePanelCreation := force; stage := AwaitFetch |} →
  let w' := fetchSettled c (FetchRejected message) w in
  since w w'
  = (if force || negb (bool_decide (is_Some (currentPanel w)))
     then [(now w, ShowErrorMessage (cannotConnectMessage message))]
     else [])
    ++ [(now w, ConsoleError (errorDuringAnalysisMessage message))]
  ∧ calls w' = delete c (calls w).
Proof.
  intros C w'. subst w'. unfold fetchSettled. rewrite C.
  rewrite (since_log_eq w (with_calls (delete c (calls w)) w)) by done.
  by destruct (catchError_frame force message
                 (with_calls (delete c (calls w)) w))
    as (_ & _ & _ & _ & _ & -> & ->).
Qed.

Lemma fetch_rejection_report_witness :
  since focused (fetchSettled 0 (FetchRejected "ECONNREFUSED") focused)
  = [(0, ShowErrorMessage
           "Could not connect to complexity analyzer backend. Is it running? Error: ECONNREFUSED");
     (0, ConsoleError "Error during analysis: ECONNREFUSED")].
Proof.
  destruct (fetch_rejection_report 0 false "ECONNREFUSED" focused) as (H & _).
  - vm_compute. reflexivity.
  - exact H.
Defined.

(** X8: when [response.json()] rejects, on an error response as on a success
    response, the failure goes through the same [catch] block: it is reported
    as a connection error, under the same gate, never as "Analysis failed"
    (lines 109, 114, 157-164). *)
Theorem body_rejection_report (c : nat) (force : bool) (st : CallStage)
  (message : string) (w : World) :
  calls w !! c = Some {| forcePanelCreation := force; stage := st |} →
  st ≠ AwaitFetch →
  let w' := bodySettled c (BodyRejected message) w in
  since w w'
  = (if force || negb (bool_decide (is_Some (currentPanel w)))
     then [(now w, ShowErrorMessage (cannotConnectMessage message))]
     else [])
    ++ [(now w, ConsoleError (errorDuringAnalysisMessage message))]
  ∧ calls w' = delete c (calls w).
Proof.
  intros C N w'. subst w'. unfold bodySettled. rewrite C.
  destruct st as [|statusText|]; [done| |];
    rewrite (since_log_eq w (with_calls (delete c (calls w)) w)) by done;
    by destruct (catchError_frame force message
                   (with_calls (delete c (calls w)) w))
      as (_ & _ & _ & _ & _ & -> & ->).
Qed.

Lemma body_rejection_report_witness :
  since backgroundServiceError
    (bodySettled 4 (BodyRejected "invalid json") backgroundServiceError)
  = [(650, ConsoleError "Error during analysis: invalid json")].
Proof.
  destruct (body_rejection_report 4 false
              (AwaitErrorBody "Internal Server Error") "invalid json"
              backgroundServiceError) as (H & _).
  - vm_compute. reflexivity.
  - discriminate.
  - exact H.
Defined.



(** ** Further properties of the panel *)

Lemma updateOrCreatePanel_calls (force : bool) (result : Json) (w : World) :
  calls (updateOrCreatePanel force result w) = calls w.
Proof.
  unfold updateOrCreatePanel. destruct (currentPanel w) as [p|].
  - by destruct (negb _ || force).
  - by destruct force.
Qed.

(** X10: with a panel open, every success posts exactly one message; a Background
    success reveals the panel only when it is hidden, a Manual one always;
    either way the panel is visible afterwards (lines 117-123). *)
Theorem success_leaves_panel_visible (evs : list (Z * Event)) (c : nat)
  (force : bool) (result : Json) (p : nat) :
  let w := run evs activate in
  currentPanel w = Some p →
  calls w !! c
  = Some {| forcePanelCreation := force; stage := AwaitResultBody |} →
  let w' := bodySettled c (BodyParsed result) w in
  since w w'
  = (now w, PostMessage p result)
    :: (if negb (visible p w) || force then [(now w, Reveal p)] else [])
  ∧ panels w' = {[p := true]} ∧ visible p w' = true.
Proof.
  intros w E C w'.
  destruct (Consistent_run evs) as [S _ _]. fold w in S. rewrite E in S.
  destruct S as [v S].
  subst w'. unfold bodySettled. rewrite C.
  set (w0 := with_calls (delete c (calls w)) w).
  destruct (updateOrCreatePanel_open force result w0 p E) as (_ & _ & ES & EM).
  assert (V : visible p w0 = v).
  { unfold visible. simpl. by rewrite S, lookup_singleton_eq. }
  rewrite V in ES, EM.
  assert (EM' : panels (updateOrCreatePanel force result w0) = {[p := true]}).
  { rewrite EM. simpl. rewrite S.
    destruct v, force; simpl; try done; apply insert_singleton_eq. }
  repeat split.
  - rewrite (since_log_eq w w0) by done. rewrite ES.
    change (visible p w) with (visible p w0). by rewrite V.
  - done.
  - unfold visible. by rewrite EM', lookup_singleton_eq.
Qed.

Lemma success_leaves_panel_visible_witness :
  since (run manualAgainTrace activate)
    (bodySettled 3 (BodyParsed sampleResult) (run manualAgainTrace activate))
  = (50, PostMessage 2 sampleResult)
    :: (if negb (visible 2 (run manualAgainTrace activate)) || true
        then [(50, Reveal 2)] else []).
Proof.
  destruct (success_leaves_panel_visible manualAgainTrace 3 true sampleResult 2)
    as (H & _).
  - vm_compute. reflexivity.
  - vm_compute. reflexivity.
  - exact H.
Defined.

Lemma lastPosted_update (force : bool) (result : Json) (w : World) (p : nat) :
  currentPanel w = Some p →
  lastPosted (log (updateOrCreatePanel force result w)) = Some (p, result).
Proof.
  intros E. destruct (updateOrCreatePanel_prefix force result w) as [k K].
  destruct (updateOrCreatePanel_open force result w p E) as (_ & _ & ES & _).
  rewrite (since_app _ _ _ K) in ES. rewrite K, ES.
  unfold lastPosted. rewrite omap_app.
  destruct (negb (visible p w) || force); simpl; apply last_snoc.
Qed.

(** X11: last arrival wins: when two successful calls overlap, the panel last
    receives the result of the call whose body arrives last, whatever the
    order in which the calls were started (lines 114-123). *)
Theorem last_arrival_wins (w : World) (p c1 c2 : nat) (force1 force2 : bool)
  (result1 result2 : Json) :
  currentPanel w = Some p → c1 ≠ c2 →
  calls w !! c1
  = Some {| forcePanelCreation := force1; stage := AwaitResultBody |} →
  calls w !! c2
  = Some {| forcePanelCreation := force2; stage := AwaitResultBody |} →
  lastPosted
    (log (bodySettled c1 (BodyParsed result1)
            (bodySettled c2 (BodyParsed result2) w)))
  = Some (p, result1).
Proof.
  intros E N C1 C2.
  set (w2 := bodySettled c2 (BodyParsed result2) w).
  assert (E2 : currentPanel w2 = Some p).
  { subst w2. unfold bodySettled. rewrite C2.
    by destruct (updateOrCreatePanel_open force2 result2
                   (with_calls (delete c2 (calls w)) w) p E) as (? & _). }
  assert (C1' : calls w2 !! c1
                = Some {| forcePanelCreation := force1;
                          stage := AwaitResultBody |}).
  { subst w2. unfold bodySettled. rewrite C2.
    rewrite updateOrCreatePanel_calls. simpl.
    by rewrite lookup_delete_ne. }
  unfold bodySettled at 1. rewrite C1'.
  by apply lastPosted_update.
Qed.

Lemma last_arrival_wins_witness :
  lastPosted
    (log (bodySettled 0 (BodyParsed sampleError)
            (bodySettled 3 (BodyParsed sampleResult)
               (handle (60, FetchSettles 0 (FetchResponse true "OK"))
                  (run manualAgainTrace activate)))))
  = Some (2%nat, sampleError).
Proof.
  apply (last_arrival_wins
           (handle (60, FetchSettles 0 (FetchResponse true "OK"))
              (run manualAgainTrace activate)) 2 0 3 false true).
  - vm_compute. reflexivity.
  - discriminate.
  - vm_compute. reflexivity.
  - vm_compute. reflexivity.
Defined.

(** ** [deactivate] *)

Lemma deactivate_frame (w : World) :
  calls (deactivate w) = calls w ∧ nextId (deactivate w) = nextId w
  ∧ activeTextEditor (deactivate w) = activeTextEditor w
  ∧ now (deactivate w) = now w
  ∧ log (deactivate w)
    = log w ++ [(now w, ConsoleLog (dquote +:+ "cyclomatic-complexity-analyzer"
                                    +:+ dquote +:+ " is now deactivated!"))].
Proof.
  unfold deactivate, dispose, emit. simpl.
  destruct (currentPanel w) as [p|]; [destruct (panels w !! p)|]; simpl;
    destruct (debounceTimeout w); simpl; done.
Qed.

Lemma deactivate_clears (w : World) :
  Consistent w →
  currentPanel (deactivate w) = None ∧ panels (deactivate w) = ∅
  ∧ timers (deactivate w) = [].
Proof.
  intros [S _ Tm].
  assert (P : currentPanel (deactivate w) = None ∧ panels (deactivate w) = ∅).
  { unfold deactivate, dispose, emit. simpl.
    destruct (currentPanel w) as [p|] eqn:E.
    - destruct S as [v S]. rewrite S, lookup_singleton_eq. simpl.
      destruct (debounceTimeout w); simpl; by rewrite delete_singleton_eq.
    - simpl. destruct (debounceTimeout w); simpl; by rewrite E, S. }
  assert (Q : timers (deactivate w) = []).
  { unfold deactivate, dispose, emit. simpl.
    assert (F : ∀ w0 : World,
              timers w0 = timers w → debounceTimeout w0 = debounceTimeout w →
              timers (match debounceTimeout w0 with
                      | Some h => clearTimeout h w0
                      | None => w0
                      end) = []).
    { intros w0 ET ED. rewrite ED.
      destruct (timers w) as [|x [|y q]] eqn:EQ; [| |done].
      - destruct (debounceTimeout w); simpl; by rewrite ET.
      - rewrite Tm. simpl. rewrite ET, filter_cons.
        by rewrite decide_False by (simpl; auto). }
    destruct (currentPanel w) as [p|]; [destruct (panels w !! p)|];
      by apply F. }
  by destruct P.
Qed.

(** X13: after [deactivate], from any state a run can reach, no panel is left, the
    panel variable is cleared and no timer is queued, so the mere passing of
    time starts no further attempt (lines 281-289). *)
Theorem deactivate_cleans_up (evs : list (Z * Event)) (T : Z) :
  let w' := deactivate (run evs activate) in
  currentPanel w' = None ∧ panels w' = ∅ ∧ timers w' = []
  ∧ advance T w' = with_now (Z.max (now w') T) w'.
Proof.
  intros w'.
  destruct (deactivate_clears (run evs activate) (Consistent_run evs))
    as (P1 & P2 & Q).
  repeat split; try done. apply advance_idle. fold w' in Q. by rewrite Q.
Qed.

(** X14: [deactivate] cancels no call in flight: when the body of a successful
    Manual call arrives afterwards, a new panel is created and receives the
    result (lines 281-289 against 114-153). *)
Theorem deactivate_keeps_calls_in_flight (evs : list (Z * Event)) (c : nat)
  (result : Json) :
  let w := run evs activate in
  calls w !! c
  = Some {| forcePanelCreation := true; stage := AwaitResultBody |} →
  let w1 := deactivate w in
  let w' := bodySettled c (BodyParsed result) w1 in
  calls w1 = calls w
  ∧ currentPanel w' = Some (nextId w)
  ∧ panels w' = {[nextId w := true]}
  ∧ since w1 w'
    = [(now w, CreateWebviewPanel (nextId w)); (now w, SetHtml (nextId w));
       (now w, PostMessage (nextId w) result)].
Proof.
  intros w C w1 w'.
  destruct (deactivate_frame w) as (EC & EN & _ & ET & _).
  destruct (deactivate_clears w (Consistent_run evs)) as (EP & EM & _).
  fold w1 in EC, EN, ET, EP, EM.
  split; [done|]. subst w'. unfold bodySettled. rewrite EC, C.
  destruct (updateOrCreatePanel_manual_absent result
              (with_calls (delete c (calls w)) w1) EP)
    as (H1 & H2 & _ & H4).
  cbn [nextId now panels with_calls] in H1, H2, H4.
  rewrite EN in H1, H2, H4. rewrite ET in H4. rewrite EM in H2.
  split; [exact H1|]. split; [by rewrite H2, insert_empty|].
  by rewrite (since_log_eq w1 (with_calls (delete c (calls w)) w1)).
Qed.

Lemma deactivate_keeps_calls_in_flight_witness :
  currentPanel
    (bodySettled 1 (BodyParsed sampleResult)
       (deactivate (run manualInFlight activate)))
  = Some (nextId (run manualInFlight activate)).
Proof.
  destruct (deactivate_keeps_calls_in_flight manualInFlight 1 sampleResult)
    as (_ & H & _).
  - vm_compute. reflexivity.
  - exact H.
Defined.

(** ** The script of the panel *)

Lemma append_assoc (a b c : string) : (a +:+ b) +:+ c = a +:+ (b +:+ c).
Proof.
  induction a as [|x a IH]; [reflexivity|].
  change (String x ((a +:+ b) +:+ c) = String x (a +:+ (b +:+ c))).
  by rewrite IH.
Qed.

Lemma append_empty_r (a : string) : a +:+ EmptyString = a.
Proof.
  induction a as [|x a IH]; [reflexivity|].
  change (String x (a +:+ EmptyString) = String x a). by rewrite IH.
Qed.

(** The loop, as a whole: all the rows appended in order, or an exception
    when some method has no [status]. *)
Lemma forEachMethod_rows (toLowerCase : string → string)
  (ms : list MethodInfo) (tableHtml : string) :
  forEachMethod toLowerCase ms tableHtml
  = (λ rows, tableHtml +:+ concatStrings rows) <$> rowsMarkup toLowerCase ms.
Proof.
  revert tableHtml. unfold rowsMarkup.
  induction ms as [|m ms IH]; intros tableHtml; simpl.
  - by rewrite append_empty_r.
  - destruct (status m) as [st|]; simpl; [|done].
    rewrite IH.
    destruct (mapM (λ method, rowMarkup toLowerCase method <$> status method) ms)
      as [rows|]; simpl; [|done].
    by rewrite append_assoc.
Qed.

(** X15: the table the script builds has one row per method, in the order of
    [methods]; building it fails exactly when some method has no [status]
    (lines 252-262). *)
Theorem table_rows (toLowerCase : string → string) (ms : list MethodInfo)
  (tableHtml : string) :
  match forEachMethod toLowerCase ms tableHtml with
  | Some html =>
      ∃ rows,
        html = tableHtml +:+ concatStrings rows
        ∧ Forall2 (λ m row, ∃ st, status m = Some st
                                  ∧ row = rowMarkup toLowerCase m st) ms rows
  | None => Exists (λ m, status m = None) ms
  end.
Proof.
  rewrite forEachMethod_rows.
  destruct (rowsMarkup toLowerCase ms) as [rows|] eqn:R; simpl.
  - exists rows. split; [done|].
    apply mapM_Some_1 in R. eapply Forall2_impl; [exact R|].
    intros m row H. simpl in H. destruct (status m) as [st|]; [|done].
    exists st. split; [done|]. by inversion H.
  - apply mapM_None_1 in R. eapply Exists_impl; [exact R|].
    intros m H. simpl in H. by destruct (status m).
Qed.

(** What the listener leaves on the page, case by case: another message type
    or a payload without [summary] changes nothing; a payload whose table
    cannot be built replaces the summary and leaves the old table; otherwise
    both containers are replaced (lines 221-270). *)
Lemma onMessage_cases (toLowerCase : string → string) (message : Message)
  (dom : Dom) :
  onMessage toLowerCase message dom
  = if bool_decide (type message = "analysisResult") then
      match summary (payload message) with
      | None => dom
      | Some s =>
          match methods (payload message) ≫= rowsMarkup toLowerCase with
          | None =>
              {| summaryDiv := summaryMarkup s;
                 methodsDetailsDiv := methodsDetailsDiv dom |}
          | Some rows =>
              {| summaryDiv := summaryMarkup s;
                 methodsDetailsDiv :=
                   tableHead +:+ concatStrings rows +:+ tableFoot |}
          end
      end
    else dom.
Proof.
  unfold onMessage.
  destruct (String.eqb_spec (type message) "analysisResult") as [E|E].
  - rewrite bool_decide_eq_true_2 by done.
    destruct (summary (payload message)) as [s|]; [|done].
    destruct (methods (payload message)) as [ms|]; simpl; [|done].
    rewrite forEachMethod_rows.
    destruct (rowsMarkup toLowerCase ms) as [rows|]; simpl; [|done].
    by rewrite append_assoc.
  - by rewrite bool_decide_eq_false_2.
Qed.

(** X16: the latest result replaces the page: for a message whose table can be
    built, what is shown depends on that message alone, not on the page
    before it nor on any earlier message (lines 228, 268). *)
Theorem latest_message_replaces (toLowerCase : string → string)
  (message earlier : Message) (dom : Dom) (s : Summary)
  (ms : list MethodInfo) :
  type message = "analysisResult" →
  summary (payload message) = Some s →
  methods (payload message) = Some ms →
  Forall (λ m, is_Some (status m)) ms →
  onMessage toLowerCase message (onMessage toLowerCase earlier dom)
  = onMessage toLowerCase message emptyDom.
Proof.
  intros T S M F. rewrite !(onMessage_cases toLowerCase message).
  rewrite bool_decide_eq_true_2, S, M by done. simpl.
  assert (R : is_Some (rowsMarkup toLowerCase ms)).
  { apply mapM_is_Some_2. eapply Forall_impl; [exact F|].
    intros m [st H]. simpl. rewrite H. by eexists. }
  destruct R as [rows R]. by rewrite R.
Qed.

Lemma latest_message_replaces_witness :
  onMessage toLowerCaseAscii sampleMessage (onMessage toLowerCaseAscii truncatedMessage emptyDom)
  = onMessage toLowerCaseAscii sampleMessage emptyDom.
Proof.
  apply (latest_message_replaces toLowerCaseAscii sampleMessage truncatedMessage emptyDom
           {| totalMethods := "1"; totalComplexity := "1" |} [sampleMethod]).
  - reflexivity.
  - reflexivity.
  - reflexivity.
  - repeat constructor. by eexists.
Defined.

(** X17: a result without [methods], or with a method without [status], leaves
    the page inconsistent: the summary is the new one, the table is still the
    one shown before (lines 228-232 run, line 268 does not). *)
Theorem truncated_result_keeps_old_table (toLowerCase : string → string)
  (message : Message) (dom : Dom) (s : Summary) :
  type message = "analysisResult" →
  summary (payload message) = Some s →
  match methods (payload message) with
  | Some ms => Exists (λ m, status m = None) ms
  | None => True
  end →
  onMessage toLowerCase message dom
  = {| summaryDiv := summaryMarkup s;
       methodsDetailsDiv := methodsDetailsDiv dom |}.
Proof.
  intros T S M. rewrite onMessage_cases.
  rewrite bool_decide_eq_true_2, S by done.
  destruct (methods (payload message)) as [ms|]; simpl; [|done].
  assert (R : rowsMarkup toLowerCase ms = None).
  { apply mapM_None_2. eapply Exists_impl; [exact M|].
    intros m H. simpl. by rewrite H. }
  by rewrite R.
Qed.

Lemma truncated_result_keeps_old_table_witness :
  onMessage toLowerCaseAscii truncatedMessage (onMessage toLowerCaseAscii sampleMessage emptyDom)
  = {| summaryDiv :=
         summaryMarkup {| totalMethods := "2"; totalComplexity := "5" |};
       methodsDetailsDiv :=
         methodsDetailsDiv (onMessage toLowerCaseAscii sampleMessage emptyDom) |}.
Proof.
  apply (truncated_result_keeps_old_table toLowerCaseAscii truncatedMessage
           (onMessage toLowerCaseAscii sampleMessage emptyDom)
           {| totalMethods := "2"; totalComplexity := "5" |}).
  - reflexivity.
  - reflexivity.
  - exact I.
Defined.

Example sample_row_class :
  rowMarkup toLowerCaseAscii sampleMethod "Simple"
  = nl +:+ "                                <tr>" +:+ nl
    +:+ "                                    <td>f</td>" +:+ nl
    +:+ "                                    <td>1</td>" +:+ nl
    +:+ "                                    <td>1</td>" +:+ nl
    +:+ "                                    <td class=" +:+ dquote
    +:+ "status-simple" +:+ dquote +:+ ">Simple</td>" +:+ nl
    +:+ "                                    <td>0</td>" +:+ nl
    +:+ "                                </tr>" +:+ nl
    +:+ "                            ".
Proof. vm_compute. reflexivity. Qed.

(** ** More invariants along every run *)

Lemma TimerWindow_frame (w w' : World) :
  TimerWindow w → timers w' = timers w → now w' = now w → TimerWindow w'.
Proof. unfold TimerWindow. by intros H -> ->. Qed.

Lemma TimerWindow_dispatch (ev : Event) (w : World) :
  TimerWindow w → TimerWindow (dispatch ev w).
Proof.
  intros H. destruct ev as [|d s|editor|c r|c r|p|p v|p m]; cbn [dispatch].
  - destruct (performAnalysis_frame true w) as (_ & _ & _ & ? & ? & _).
    by apply (TimerWindow_frame w).
  - assert (H' : TimerWindow (applyEdit d s w)).
    { apply (TimerWindow_frame w); [done| |]; unfold applyEdit;
        destruct (activeTextEditor w) as [e|]; try done;
        by destruct (bool_decide (docId e = d)). }
    revert H'. generalize (applyEdit d s w). clear. intros w H.
    unfold onDidChangeTextDocument.
    destruct (activeTextEditor w) as [e|]; [|done].
    destruct (bool_decide (docId e = d)); [|done].
    destruct (includes handlerLanguages (languageId e)); [|done].
    assert (K : ∀ w0 : World, TimerWindow w0 →
                TimerWindow
                  (with_debounceTimeout (Some (nextId w0))
                     (with_nextId (S (nextId w0))
                        (with_timers
                           (enqueue (nextId w0, now w0 + DEBOUNCE_DELAY_MS)
                              (timers w0)) w0)))).
    { clear. intros w0 H0. unfold TimerWindow in *. simpl.
      induction (timers w0) as [|y q IH]; simpl.
      - repeat constructor; simpl; unfold DEBOUNCE_DELAY_MS; lia.
      - apply Forall_cons in H0 as [Hy Hq].
        destruct (bool_decide (y.2 ≤ now w0 + DEBOUNCE_DELAY_MS)).
        + constructor; [done|by apply IH].
        + constructor; [simpl; unfold DEBOUNCE_DELAY_MS; lia|].
          by constructor. }
    destruct (debounceTimeout w) as [h|]; [|by apply K].
    apply (K (clearTimeout h w)). unfold TimerWindow, clearTimeout in *. simpl.
    rewrite Forall_forall in H |- *.
    intros x [_ Hx]%list_elem_of_filter. by apply H.
  - assert (H' : TimerWindow (with_activeTextEditor editor w))
      by (by apply (TimerWindow_frame w)).
    unfold onDidChangeActiveTextEditor. destruct editor as [e|]; [|done].
    destruct (includes handlerLanguages (languageId e)); [|done].
    destruct (performAnalysis_frame false (with_activeTextEditor (Some e) w))
      as (_ & _ & _ & ? & ? & _).
    by apply (TimerWindow_frame (with_activeTextEditor (Some e) w)).
  - unfold fetchSettled.
    destruct (calls w !! c) as [[force [|st|]]|]; try done.
    destruct r; [|done]. unfold catchError.
    by destruct (force || negb _).
  - unfold bodySettled.
    destruct (calls w !! c) as [[force [|st|]]|]; try done; destruct r;
      try done; unfold catchError, updateOrCreatePanel; simpl.
    + by destruct (force || negb _).
    + by destruct (force || negb _).
    + destruct (currentPanel w) as [q|]; [by destruct (negb _ || force)|].
      by destruct force.
  - by destruct (panels w !! p).
  - by destruct (panels w !! p).
  - by destruct (panels w !! p).
Qed.

Lemma TimerWindow_advance (t : Z) (w : World) :
  Consistent w → TimerWindow w → TimerWindow (advance t w).
Proof.
  intros [_ _ T] H. unfold advance, TimerWindow in *.
  destruct (timers w) as [|[h due] [|y q]] eqn:E; [| |done].
  - simpl. by rewrite E.
  - apply Forall_cons in H as [[H1 H2] _]. simpl in H1, H2.
    cbn [runTimers]. destruct (decide (due ≤ t)) as [D|D].
    + rewrite bool_decide_eq_true_2 by done. unfold timerFires.
      set (w0 := with_now (Z.max (now w) due) _).
      destruct (performAnalysis_frame false w0) as (_ & _ & _ & _ & ET & _).
      simpl. rewrite ET. subst w0. simpl. rewrite E.
      rewrite filter_cons, decide_False by (simpl; auto). done.
    + rewrite bool_decide_eq_false_2 by done. simpl. rewrite E.
      repeat constructor; simpl; lia.
Qed.

(** X2: along every run, a queued timer is never overdue and never due more
    than [DEBOUNCE_DELAY_MS] ahead of the clock (lines 6, 31-33). *)
Theorem pending_timer_window (evs : list (Z * Event)) :
  let w := run evs activate in
  ∀ x, x ∈ timers w → now w < x.2 ∧ x.2 ≤ now w + DEBOUNCE_DELAY_MS.
Proof.
  intros w. subst w.
  assert (K : ∀ w0, Consistent w0 → TimerWindow w0 →
              Consistent (run evs w0) ∧ TimerWindow (run evs w0)).
  { induction evs as [|te evs IH]; intros w0 C H; [done|].
    rewrite run_cons. apply IH; [by apply Consistent_handle|].
    by apply TimerWindow_dispatch, TimerWindow_advance. }
  destruct (K activate Consistent_activate) as [_ H]; [by constructor|].
  intros x Hx. unfold TimerWindow in H. rewrite Forall_forall in H.
  by apply H.
Qed.

Lemma pending_timer_window_witness :
  now (run typingTrace activate) < 600
  ∧ 600 ≤ now (run typingTrace activate) + DEBOUNCE_DELAY_MS.
Proof.
  apply (pending_timer_window typingTrace (1%nat, 600)).
  vm_compute. constructor.
Defined.

Lemma performAnalysis_posts_nothing (force : bool) (w0 w : World) :
  log w0 = log w →
  postsReachLivePanel w0 (performAnalysis force w).
Proof.
  intros EL. unfold postsReachLivePanel. rewrite (since_log_eq w0 w) by done.
  destruct (activeTextEditor w) as [editor|] eqn:E.
  - destruct (backendLanguage (languageId editor)) as [backend|] eqn:L.
    + erewrite since_app by (by apply performAnalysis_supported_log).
      destruct force; by repeat constructor.
    + rewrite (performAnalysis_unsupported _ _ _ E L).
      destruct force; rewrite ?since_emit, ?since_refl; by repeat constructor.
  - rewrite (performAnalysis_no_editor _ _ E).
    destruct force; rewrite ?since_emit, ?since_refl; by repeat constructor.
Qed.

Lemma catchError_posts_nothing (force : bool) (message : string) (w0 w : World) :
  log w0 = log w →
  postsReachLivePanel w0 (catchError force message w).
Proof.
  intros EL. unfold postsReachLivePanel. rewrite (since_log_eq w0 w) by done.
  destruct (catchError_frame force message w) as (_ & _ & _ & _ & _ & _ & ->).
  destruct (force || negb (bool_decide (is_Some (currentPanel w))));
    by repeat constructor.
Qed.

Lemma updateOrCreatePanel_posts_live (force : bool) (result : Json)
  (w0 w : World) :
  log w0 = log w →
  match currentPanel w with
  | Some p => is_Some (panels w !! p)
  | None => True
  end →
  postsReachLivePanel w0 (updateOrCreatePanel force result w).
Proof.
  intros EL S. unfold postsReachLivePanel. rewrite (since_log_eq w0 w) by done.
  destruct (currentPanel w) as [p|] eqn:E.
  - destruct (updateOrCreatePanel_open force result w p E)
      as (_ & _ & -> & ->).
    destruct (negb (visible p w) || force); repeat constructor; simpl;
      rewrite ?lookup_insert_eq; done.
  - destruct force.
    + destruct (updateOrCreatePanel_manual_absent result w E)
        as (_ & -> & _ & ->).
      repeat constructor; simpl; by rewrite lookup_insert_eq.
    + rewrite updateOrCreatePanel_background_absent by done.
      rewrite since_refl. constructor.
Qed.

(** X12: in every step of every run, a message is only ever posted to, and a
    reveal only ever asked of, a panel that is alive: the extension never
    writes to a disposed panel (lines 117-153 with 144-149). *)
Theorem posts_reach_live_panel (evs : list (Z * Event)) (t : Z) (ev : Event) :
  let w := advance t (run evs activate) in
  postsReachLivePanel w (dispatch ev w).
Proof.
  intros w.
  assert (C : Consistent w) by apply Consistent_advance, Consistent_run.
  clearbody w.
  assert (Q : ∀ w1 w', log w' = log w1 → postsReachLivePanel w1 w').
  { intros w1 w' EL. unfold postsReachLivePanel.
    rewrite since_same by done. constructor. }
  destruct ev as [|d s|editor|c r|c r|p|p v|p m]; cbn [dispatch].
  - by apply performAnalysis_posts_nothing.
  - apply Q, edit_log.
  - unfold onDidChangeActiveTextEditor. destruct editor as [e|]; [|by apply Q].
    destruct (includes handlerLanguages (languageId e)); [|by apply Q].
    by apply performAnalysis_posts_nothing.
  - unfold fetchSettled.
    destruct (calls w !! c) as [[force [|st|]]|]; try by apply Q.
    destruct r; [|by apply Q]. by apply catchError_posts_nothing.
  - unfold bodySettled.
    destruct (calls w !! c) as [[force [|st|]]|]; try by apply Q.
    + destruct r; [by apply catchError_posts_nothing|].
      unfold postsReachLivePanel.
      rewrite (since_log_eq w (with_calls (delete c (calls w)) w)) by done.
      rewrite since_emit. by repeat constructor.
    + destruct r; [by apply catchError_posts_nothing|].
      apply updateOrCreatePanel_posts_live; [done|]. simpl.
      destruct C as [S _ _]. destruct (currentPanel w) as [q|]; [|done].
      destruct S as [v0 ->]. by rewrite lookup_singleton_eq.
  - destruct (panels w !! p); by apply Q.
  - destruct (panels w !! p); by apply Q.
  - destruct (panels w !! p); [|by apply Q].
    unfold postsReachLivePanel, onDidReceiveMessage. rewrite since_emit.
    by repeat constructor.
Qed.
